(** * Arduino con Tiny Machine Learning: the host-side Python scripts

    A shallow embedding of the four scripts of the repository

    - [arduino_detection.py]  capture / classify / publish pipeline,
    - [arduino_reader.py]     interactive serial reader and CSV capture,
    - [arduino_test.py]       CSV to image converter,
    - [intentitobb.py]        drone telemetry simulator,

    together with the properties that their specification states about
    them.  Python integers are [Z]; Python strings are [string] (the
    model is restricted to characters below 128, where a character and
    its UTF-8 byte coincide); a function that can raise returns an
    [option]; methods that mutate [self] take the object's fields as a
    record and return the new record. *)

From Stdlib Require Import ZArith QArith Qabs List String Ascii Bool Lia.
From Stdlib Require Import Permutation.
Import ListNotations.

Local Open Scope string_scope.
Local Open Scope Z_scope.

(** ** The Python builtins that the scripts use *)

Module Py.

(** [sum(xs)] on a list of integers. *)
Definition sum (xs : list Z) : Z := fold_left Z.add xs 0.

(** [min(xs)] and [max(xs)] for the non-empty list [x :: xs]: one
    left-to-right scan that keeps the best element seen so far. *)
Definition min (x : Z) (xs : list Z) : Z := fold_left Z.min xs x.
Definition max (x : Z) (xs : list Z) : Z := fold_left Z.max xs x.

(** [len(xs)] as a Python integer. *)
Definition len {A : Type} (xs : list A) : Z := Z.of_nat (List.length xs).

(** [a / b] on two integers is true division.  The result is modelled
    as the exact rational: CPython rounds the quotient correctly, a list
    that fits in memory has fewer than 2^44 elements, and for such a
    list of samples in [0,255] the rounded mean and the exact one stand
    on the same side of every integer threshold. *)
Definition truediv (a b : Z) : Q := inject_Z a / inject_Z b.

(** [x < y] on numbers. *)
Definition Qltb (x y : Q) : bool := negb (Qle_bool y x).

(** [s.startswith(p)]. *)
Definition startswith (s p : string) : bool := String.prefix p s.

(** [p in s] on strings: [p] occurs in [s] as a contiguous substring. *)
Fixpoint str_in (p s : string) : bool :=
  String.prefix p s ||
  match s with
  | EmptyString => false
  | String _ s' => str_in p s'
  end.

(** Truthiness of a string: [if s:] holds for the non-empty ones. *)
Definition truthy (s : string) : bool :=
  match s with EmptyString => false | String _ _ => true end.

(** [str.isspace] on one character below 128: tab, line feed, vertical
    tab, form feed, carriage return, the four separators 28-31, space. *)
Definition is_space (c : ascii) : bool :=
  let n := nat_of_ascii c in
  ((9 <=? n) && (n <=? 13) || (28 <=? n) && (n <=? 32))%nat.

(** [s.lstrip()], [s.rstrip()] and [s.strip()]. *)
Fixpoint lstrip (s : string) : string :=
  match s with
  | EmptyString => EmptyString
  | String c s' => if is_space c then lstrip s' else s
  end.

Fixpoint rstrip (s : string) : string :=
  match s with
  | EmptyString => EmptyString
  | String c s' =>
      match rstrip s' with
      | EmptyString => if is_space c then EmptyString else String c EmptyString
      | r => String c r
      end
  end.

Definition strip (s : string) : string := rstrip (lstrip s).

(** [s.split(sep)] for a one-character separator: the pieces between
    the separators, empty pieces included; never the empty list. *)
Fixpoint split (sep : ascii) (s : string) : list string :=
  match s with
  | EmptyString => [EmptyString]
  | String c s' =>
      if Ascii.eqb c sep then EmptyString :: split sep s'
      else match split sep s' with
           | [] => [String c EmptyString]
           | t :: ts => String c t :: ts
           end
  end.

Definition is_digit (c : ascii) : bool :=
  let n := nat_of_ascii c in ((48 <=? n) && (n <=? 57))%nat.

Definition digit_value (c : ascii) : Z := Z.of_nat (nat_of_ascii c - 48).

(** The digits of a base-10 numeral: groups of digits, with single
    underscores allowed between two digits.  [prev] tells whether the
    previous character was a digit. *)
Fixpoint int_digits (acc : Z) (prev : bool) (s : string) : option Z :=
  match s with
  | EmptyString => if prev then Some acc else None
  | String c s' =>
      if is_digit c then int_digits (10 * acc + digit_value c) true s'
      else if Ascii.eqb c "_" then
             if prev then int_digits acc false s' else None
      else None
  end.

(** [int(s)] on a string: surrounding white space is ignored, then an
    optional sign and the digits; [None] stands for [ValueError].  Two
    things of CPython are outside the model: digits beyond ASCII, and
    the limit (4300 digits by default) that recent interpreters put on
    the length of the numeral. *)
Definition int (s : string) : option Z :=
  match strip s with
  | String "+" d => int_digits 0 false d
  | String "-" d => option_map Z.opp (int_digits 0 false d)
  | d => int_digits 0 false d
  end.

(** [range(a, b)]. *)
Definition range (a b : Z) : list Z :=
  map (fun i => a + Z.of_nat i) (seq 0 (Z.to_nat (b - a))).

End Py.

(** ** A small exception monad

    [None] is a raised exception; [x <- c ;; k] runs [k] only when [c]
    returned. *)

Definition bind {A B : Type} (c : option A) (k : A -> option B) : option B :=
  match c with
  | Some x => k x
  | None => None
  end.

Notation "x <- c ;; k" := (bind c (fun x => k))
  (at level 61, c at next level, right associativity).

(** [[f(x) for x in xs]] when [f] can raise: the first failure aborts the
    comprehension. *)
Fixpoint mapM {A B : Type} (f : A -> option B) (xs : list A) : option (list B) :=
  match xs with
  | [] => Some []
  | x :: xs' => y <- f x ;; ys <- mapM f xs' ;; Some (y :: ys)
  end.

(** ** [arduino_detection.py]: capture, classify, publish *)

Module ArduinoDetection.

(** The fields of [ArduinoFlespiMQTT] that its methods read and write. *)
Record Estado : Type := mkEstado {
  is_connected_arduino : bool;
  is_connected_mqtt : bool;
  mqtt_topic : string;
  total_envios : Z;
  envios_humo : Z;
  envios_normal : Z;
  errores : Z
}.

(** [__init__]: nothing connected, every counter at zero. *)
Definition init : Estado :=
  {| is_connected_arduino := false;
     is_connected_mqtt := false;
     mqtt_topic := "arduino/anomalias";
     total_envios := 0;
     envios_humo := 0;
     envios_normal := 0;
     errores := 0 |}.

(** The two tests on markers of the capture loop. *)
Definition es_inicio (linea : string) : bool :=
  Py.str_in "INICIO DATOS CSV" linea || Py.str_in "===" linea.

Definition es_fin (linea : string) : bool :=
  Py.str_in "FIN DATOS CSV" linea || Py.str_in "Copia estos datos" linea.

(** The [while time.time() < timeout] loop of [capturar_datos_csv].
    [lecturas] holds what [leer_linea] returns in the successive
    iterations that start before the deadline ([None] when nothing is
    waiting on the port); the loop ends when they are used up, or at the
    [break]. *)
Fixpoint bucle_captura (capturando : bool) (datos_csv : list string)
         (lecturas : list (option string)) : list string :=
  match lecturas with
  | [] => datos_csv
  | None :: resto => bucle_captura capturando datos_csv resto
  | Some linea :: resto =>
      if Py.truthy linea then
        if es_inicio linea then bucle_captura true datos_csv resto
        else if es_fin linea then datos_csv
        else if capturando && Py.str_in "," linea
                && negb (Py.startswith linea "#")
             then bucle_captura capturando (datos_csv ++ [linea]) resto
             else bucle_captura capturando datos_csv resto
      else bucle_captura capturando datos_csv resto
  end.

(** [capturar_datos_csv].  [comando_ok] is the result of
    [enviar_comando('3')]. *)
Definition capturar_datos_csv (comando_ok : bool)
           (lecturas : list (option string)) : option (list string) :=
  if negb comando_ok then None
  else
    match bucle_captura false [] lecturas with
    | [] => None
    | datos_csv => Some datos_csv
    end.

(** One line of [convertir_csv_a_array]:
    [[int(val.strip()) for val in linea.split(',') if val.strip()]]. *)
Definition convertir_fila (linea : string) : option (list Z) :=
  mapM (fun val => Py.int (Py.strip val))
       (filter (fun val => Py.truthy (Py.strip val)) (Py.split "," linea)).

(** [convertir_csv_a_array]: [valores] grows line by line; an exception
    in a line leaves the function without a result. *)
Fixpoint convertir_desde (valores : list Z) (datos_csv : list string)
  : option (list Z) :=
  match datos_csv with
  | [] => Some valores
  | linea :: resto =>
      fila <- convertir_fila linea ;;
      convertir_desde (valores ++ fila) resto
  end.

Definition convertir_csv_a_array (datos_csv : list string) : option (list Z) :=
  convertir_desde [] datos_csv.

(** [generar_anomalia]. *)
Definition generar_anomalia (datos_imagen : list Z) : string :=
  match datos_imagen with
  | [] => "normal"
  | x :: xs =>
      let brillo_promedio :=
        Py.truediv (Py.sum datos_imagen) (Py.len datos_imagen) in
      let brillo_min := Py.min x xs in
      let brillo_max := Py.max x xs in
      let rango := brillo_max - brillo_min in
      if Py.Qltb brillo_promedio 60 && (rango <? 25) then "humo"
      else if Py.Qltb brillo_promedio 80 && (rango <? 20) then "humo"
      else "normal"
  end.

(** The payload of a message.  [brillo_promedio] is kept before the
    rounding to two decimals, which is a floating-point operation; the
    readable copy of the time stamp is left out. *)
Record Payload : Type := mkPayload {
  ts : Z;
  anomalia : string;
  imagen_datos : list Z;
  total_pixeles : Z;
  brillo_promedio : option Q;
  brillo_minimo : option Z;
  brillo_maximo : option Z
}.

(** A call of [mqtt_client.publish]. *)
Record Publicacion : Type := mkPublicacion {
  topic : string;
  mensaje : Payload;
  qos : Z
}.

(** [mqtt.MQTT_ERR_SUCCESS] of the paho client. *)
Definition MQTT_ERR_SUCCESS : Z := 0.

Definition crear_payload (timestamp : Z) (datos_imagen : list Z)
           (anomalia : string) : Payload :=
  {| ts := timestamp;
     anomalia := anomalia;
     imagen_datos := datos_imagen;
     total_pixeles := Py.len datos_imagen;
     brillo_promedio :=
       match datos_imagen with
       | [] => None
       | _ => Some (Py.truediv (Py.sum datos_imagen) (Py.len datos_imagen))
       end;
     brillo_minimo :=
       match datos_imagen with [] => None | x :: xs => Some (Py.min x xs) end;
     brillo_maximo :=
       match datos_imagen with [] => None | x :: xs => Some (Py.max x xs) end |}.

(** [self.errores += 1]. *)
Definition contar_error (self : Estado) : Estado :=
  {| is_connected_arduino := is_connected_arduino self;
     is_connected_mqtt := is_connected_mqtt self;
     mqtt_topic := mqtt_topic self;
     total_envios := total_envios self;
     envios_humo := envios_humo self;
     envios_normal := envios_normal self;
     errores := errores self + 1 |}.

(** The success branch of [enviar_a_flespi]: [total_envios += 1], then
    [envios_humo += 1] or [envios_normal += 1]. *)
Definition contar_envio (self : Estado) (anomalia : string) : Estado :=
  {| is_connected_arduino := is_connected_arduino self;
     is_connected_mqtt := is_connected_mqtt self;
     mqtt_topic := mqtt_topic self;
     total_envios := total_envios self + 1;
     envios_humo :=
       if String.eqb anomalia "humo" then envios_humo self + 1
       else envios_humo self;
     envios_normal :=
       if String.eqb anomalia "humo" then envios_normal self
       else envios_normal self + 1;
     errores := errores self |}.

(** What the [try] block of [enviar_a_flespi] meets: [publish] returns
    a result with the code [rc], or an exception is raised. *)
Inductive Respuesta : Type :=
| Devuelve (rc : Z)
| Lanza.

(** [enviar_a_flespi].  [timestamp] is the clock.  The result is the
    new state, the returned boolean and the calls of [publish] that
    returned. *)
Definition enviar_a_flespi (self : Estado) (datos_imagen : list Z)
           (anomalia : string) (timestamp : Z) (respuesta : Respuesta)
  : Estado * bool * list Publicacion :=
  if negb (is_connected_mqtt self) then (contar_error self, false, [])
  else
    let payload := crear_payload timestamp datos_imagen anomalia in
    match respuesta with
    | Devuelve rc =>
        let llamada :=
          {| topic := mqtt_topic self; mensaje := payload; qos := 1 |} in
        if rc =? MQTT_ERR_SUCCESS
        then (contar_envio self anomalia, true, [llamada])
        else (contar_error self, false, [llamada])
    | Lanza => (contar_error self, false, [])
    end.

(** What one turn of the loop of [iniciar_monitoreo] receives from
    outside. *)
Record Entrada : Type := mkEntrada {
  comando_ok : bool;
  lecturas : list (option string);
  timestamp : Z;
  respuesta : Respuesta
}.

(** One turn of the loop of [iniciar_monitoreo]: capture, convert,
    classify, publish.  [None] is an exception that leaves the loop (a
    token that is not a number). *)
Definition ciclo (self : Estado) (e : Entrada)
  : option (Estado * list Publicacion) :=
  match capturar_datos_csv (comando_ok e) (lecturas e) with
  | Some datos_csv =>
      datos_imagen <- convertir_csv_a_array datos_csv ;;
      let anomalia := generar_anomalia datos_imagen in
      let '(self', _, llamadas) :=
        enviar_a_flespi self datos_imagen anomalia (timestamp e) (respuesta e) in
      Some (self', llamadas)
  | None => Some (contar_error self, [])
  end.

(** The loop of [iniciar_monitoreo] over the successive turns, until the
    turns are used up (the operator's interrupt) or one raises. *)
Fixpoint monitoreo (self : Estado) (entradas : list Entrada) : Estado :=
  match entradas with
  | [] => self
  | e :: resto =>
      match ciclo self e with
      | Some (self', _) => monitoreo self' resto
      | None => self
      end
  end.

(** [on_mqtt_connect] and [on_mqtt_disconnect], the callbacks that the
    MQTT client calls with the result code of a connection and when the
    connection is lost. *)
Definition on_mqtt_connect (self : Estado) (rc : Z) : Estado :=
  {| is_connected_arduino := is_connected_arduino self;
     is_connected_mqtt := (rc =? 0);
     mqtt_topic := mqtt_topic self;
     total_envios := total_envios self;
     envios_humo := envios_humo self;
     envios_normal := envios_normal self;
     errores := errores self |}.

Definition on_mqtt_disconnect (self : Estado) : Estado :=
  {| is_connected_arduino := is_connected_arduino self;
     is_connected_mqtt := false;
     mqtt_topic := mqtt_topic self;
     total_envios := total_envios self;
     envios_humo := envios_humo self;
     envios_normal := envios_normal self;
     errores := errores self |}.

(** What happens to the object while [iniciar_monitoreo] runs: a turn of
    its loop, or a callback of the client between two turns. *)
Inductive Suceso : Type :=
| Conecta (rc : Z)
| Desconecta
| Turno (e : Entrada).

(** A run of [iniciar_monitoreo]: the state it ends with and the calls of
    [publish] that returned, in their order.  The run stops when the
    happenings are used up or when a turn raises. *)
Fixpoint ejecutar (self : Estado) (sucesos : list Suceso)
  : Estado * list Publicacion :=
  match sucesos with
  | [] => (self, [])
  | Conecta rc :: resto => ejecutar (on_mqtt_connect self rc) resto
  | Desconecta :: resto => ejecutar (on_mqtt_disconnect self) resto
  | Turno e :: resto =>
      match ciclo self e with
      | Some (self', llamadas) =>
          let '(final, otras) := ejecutar self' resto in
          (final, (llamadas ++ otras)%list)
      | None => (self, [])
      end
  end.

End ArduinoDetection.

(** ** [arduino_reader.py]: the interactive capture *)

Module ArduinoReader.

(** The [while True] loop of [capturar_imagen_csv], with the same tests
    as the loop of the detector.  [lecturas] holds what [leer_linea]
    returns up to the operator's interrupt; the first component of the
    result is what the loop prints. *)
Fixpoint bucle_captura (capturando : bool) (consola datos_csv : list string)
         (lecturas : list (option string)) : list string * list string :=
  match lecturas with
  | [] => (consola, datos_csv)
  | None :: resto => bucle_captura capturando consola datos_csv resto
  | Some linea :: resto =>
      if Py.truthy linea then
        let consola := (consola ++ [linea])%list in
        if Py.str_in "INICIO DATOS CSV" linea || Py.str_in "===" linea
        then bucle_captura true consola datos_csv resto
        else if Py.str_in "FIN DATOS CSV" linea
                || Py.str_in "Copia estos datos" linea
        then (consola, datos_csv)
        else if capturando && Py.str_in "," linea
                && negb (Py.startswith linea "#")
             then bucle_captura capturando consola (datos_csv ++ [linea]) resto
             else bucle_captura capturando consola datos_csv resto
      else bucle_captura capturando consola datos_csv resto
  end.


End ArduinoReader.

(** ** [arduino_test.py]: from a CSV file to an image *)

Module ArduinoTest.

(** The two fields of [CSVtoImageConverter] that the conversion reads
    and writes. *)
Record Convertidor : Type := mkConvertidor {
  ancho : Z;
  alto : Z
}.

(** [__init__] with its default arguments. *)
Definition init : Convertidor := {| ancho := 22; alto := 18 |}.

(** A row of [csv.reader] for a line without quote characters: the
    fields between the commas, and no field at all for an empty line. *)
Definition csv_reader_fila (linea : string) : list string :=
  match linea with
  | EmptyString => []
  | _ => Py.split "," linea
  end.

(** The loop of [csv_a_array] over the lines of the file. *)
Fixpoint leer_filas (datos : list Z) (lineas : list string) : option (list Z) :=
  match lineas with
  | [] => Some datos
  | l :: resto =>
      match csv_reader_fila l with
      | [] => leer_filas datos resto
      | campo :: campos =>
          if Py.startswith campo "#" then leer_filas datos resto
          else
            fila <- mapM Py.int
                      (filter (fun val => Py.truthy (Py.strip val))
                              (campo :: campos)) ;;
            leer_filas (datos ++ fila) resto
      end
  end.

(** [csv_a_array] on the lines of the file.  [np_uint8] is the
    conversion of one Python integer by [np.array(..., dtype=np.uint8)],
    which depends on the release of NumPy outside of [0,255]; [None] is
    the [except] branch. *)
Definition csv_a_array (np_uint8 : Z -> option Z) (lineas : list string)
  : option (list Z) :=
  datos <- leer_filas [] lineas ;;
  mapM np_uint8 datos.

(** What [array_a_imagen] prints. *)
Inductive Aviso : Type :=
| AjustandoDimensiones (total_pixeles : Z)
| NuevoTamano (w h : Z)
| ErrorCreandoImagen.

(** The [for h in range(10, 50)] search of [array_a_imagen]. *)
Definition buscar_dimensiones (self : Convertidor) (total_pixeles : Z)
  : Convertidor * list Aviso :=
  match find (fun h => total_pixeles mod h =? 0) (Py.range 10 50) with
  | Some h =>
      let w := total_pixeles / h in
      ({| ancho := w; alto := h |}, [NuevoTamano w h])
  | None => (self, [])
  end.

(** The first block of [array_a_imagen]: the dimensions are kept when
    they fit the data, and searched for otherwise. *)
Definition ajustar_dimensiones (self : Convertidor) (datos : list Z)
  : Convertidor * list Aviso :=
  let total_esperado := ancho self * alto self in
  if negb (Py.len datos =? total_esperado) then
    let '(self', avisos) := buscar_dimensiones self (Py.len datos) in
    (self', AjustandoDimensiones (Py.len datos) :: avisos)
  else (self, []).

(** The rows of a row-major matrix. *)
Fixpoint filas (n w : nat) (datos : list Z) : list (list Z) :=
  match n with
  | O => []
  | S n' => firstn w datos :: filas n' w (skipn w datos)
  end.

(** [datos.reshape((alto, ancho))]: [None] when the shape does not fit.
    The wildcard -1 of NumPy is outside the model. *)
Definition reshape (alto ancho : Z) (datos : list Z) : option (list (list Z)) :=
  if (0 <=? alto) && (0 <=? ancho) && (alto * ancho =? Py.len datos)
  then Some (filas (Z.to_nat alto) (Z.to_nat ancho) datos)
  else None.

(** A grayscale image: its size and its rows. *)
Record Imagen : Type := mkImagen {
  width : Z;
  height : Z;
  pixeles : list (list Z)
}.

(** [Image.fromarray(imagen_array, mode='L')]. *)
Definition fromarray (alto ancho : Z) (imagen_array : list (list Z)) : Imagen :=
  {| width := ancho; height := alto; pixeles := imagen_array |}.

(** The pixel of column [x] and row [y], [None] outside the image. *)
Definition getpixel (im : Imagen) (x y : Z) : option Z :=
  if (0 <=? x) && (0 <=? y) then
    fila <- nth_error (pixeles im) (Z.to_nat y) ;;
    nth_error fila (Z.to_nat x)
  else None.

(** Modelled from the spec: [Image.resize(size, Image.NEAREST)] belongs
    to the imaging library, not to the repository.  It is nearest-neighbour
    sampling without smoothing: the pixel of the result at column [X] and
    row [Y] is the pixel of the source under the centre of that pixel,
    column [floor((X + 1/2) * w / W)] and row [floor((Y + 1/2) * h / H)]. *)
Definition resize_nearest (im : Imagen) (nuevo_ancho nuevo_alto : Z) : Imagen :=
  {| width := nuevo_ancho;
     height := nuevo_alto;
     pixeles :=
       map (fun Y =>
              map (fun X =>
                     match getpixel im
                             ((2 * X + 1) * width im / (2 * nuevo_ancho))
                             ((2 * Y + 1) * height im / (2 * nuevo_alto)) with
                     | Some v => v
                     | None => 0
                     end)
                  (Py.range 0 nuevo_ancho))
           (Py.range 0 nuevo_alto) |}.

(** [array_a_imagen]: the converter with its possibly new dimensions,
    the image ([None] in the [except] branch) and what was printed. *)
Definition array_a_imagen (self : Convertidor) (datos : list Z) (escalar : Z)
  : Convertidor * option Imagen * list Aviso :=
  let '(self, avisos) := ajustar_dimensiones self datos in
  match reshape (alto self) (ancho self) datos with
  | None => (self, None, (avisos ++ [ErrorCreandoImagen])%list)
  | Some imagen_array =>
      let imagen := fromarray (alto self) (ancho self) imagen_array in
      let imagen :=
        if escalar >? 1 then
          let nuevo_ancho := ancho self * escalar in
          let nuevo_alto := alto self * escalar in
          resize_nearest imagen nuevo_ancho nuevo_alto
        else imagen in
      (self, Some imagen, avisos)
  end.

End ArduinoTest.

(** ** [intentitobb.py]: the drone telemetry simulator

    The module-level variables of the script are the fields of one
    record.  Its floating-point values are modelled as exact rationals,
    and the roundings of the payload are left out; the properties below
    only rest on the integer fields and on the control flow. *)

Module Intentitobb.

Local Open Scope Q_scope.

Definition MQTT_TOPIC : string := "satnet/agrodrone/telemetry".

(** [mqtt.MQTT_ERR_SUCCESS] of the paho client. *)
Definition MQTT_ERR_SUCCESS : Z := 0.
Definition base_lat : Q := - (346123 # 10000).
Definition base_lon : Q := - (583772 # 10000).
Definition base_alt : Q := 2342 # 10.

Record Dron : Type := mkDron {
  connected : bool;
  reading_count : Z;
  gps_loss_count : Z;
  battery_level : Q;
  current_lat : Q;
  current_lon : Q;
  current_alt : Q;
  prev_lat : Q;
  prev_lon : Q
}.

(** The values of the variables when the module is loaded. *)
Definition init : Dron :=
  {| connected := false;
     reading_count := 0;
     gps_loss_count := 0;
     battery_level := 100;
     current_lat := base_lat;
     current_lon := base_lon;
     current_alt := base_alt;
     prev_lat := base_lat;
     prev_lon := base_lon |}.

(** The results of the calls of [random.randint] that one publication
    can make, in the order of the script. *)
Record Azar : Type := mkAzar {
  tipo : Z;
  paso_lat : Z;
  paso_lon : Z;
  paso_alt : Z;
  vuelta_lat : Z;
  vuelta_lon : Z;
  calor : Z;
  frio : Z;
  humedad : Z;
  caida : Z
}.

(** [simulate_drone_movement]. *)
Definition simulate_drone_movement (d : Dron) (r : Azar) : Dron :=
  let lat := current_lat d + inject_Z (paso_lat r) / 1000000 in
  let lon := current_lon d + inject_Z (paso_lon r) / 1000000 in
  let alt := base_alt + inject_Z (paso_alt r) / 10 in
  let lat :=
    if Py.Qltb (5 # 1000) (Qabs (lat - base_lat))
    then base_lat + inject_Z (vuelta_lat r) / 10000 else lat in
  let lon :=
    if Py.Qltb (5 # 1000) (Qabs (lon - base_lon))
    then base_lon + inject_Z (vuelta_lon r) / 10000 else lon in
  {| connected := connected d;
     reading_count := reading_count d;
     gps_loss_count := gps_loss_count d;
     battery_level := battery_level d;
     current_lat := lat;
     current_lon := lon;
     current_alt := alt;
     prev_lat := prev_lat d;
     prev_lon := prev_lon d |}.

(** The JSON object that is published. *)
Record Telemetria : Type := mkTelemetria {
  timestamp : string;
  temperature : Q;
  humidity : Q;
  altitude : Q;
  battery : Z;
  gps : option (Q * Q)
}.

Record Publicacion : Type := mkPublicacion {
  topic : string;
  data : Telemetria;
  qos : Z
}.

Inductive Respuesta : Type :=
| Devuelve (rc : Z)
| Lanza.

(** [publish_telemetry].  [ahora] is the formatted clock, [r] the random
    draws, [respuesta] what the [try] block meets.  The result is the new
    value of the variables and the calls of [publish] that returned. *)
Definition publish_telemetry (d : Dron) (ahora : string) (r : Azar)
           (respuesta : Respuesta) : Dron * list Publicacion :=
  if negb (connected d) then (d, [])
  else
    let count := (reading_count d + 1)%Z in
    let has_anomaly := (count mod 5 =? 0)%Z in
    let anomaly_type := if has_anomaly then tipo r else 0%Z in
    let d :=
      if negb (anomaly_type =? 2)%Z then simulate_drone_movement d r else d in
    let perdidas :=
      if negb (anomaly_type =? 2)%Z then gps_loss_count d
      else (gps_loss_count d + 1)%Z in
    let bateria := battery_level d - (1 # 10) in
    let bateria := if Py.Qltb bateria 0 then 100 else bateria in
    let temperatura :=
      if (anomaly_type =? 1)%Z then 45 + inject_Z (calor r) / 10
      else 25 + inject_Z (frio r) / 10 in
    let humedad_rel := 40 + inject_Z (humedad r) / 10 in
    let altitud :=
      if (anomaly_type =? 3)%Z then inject_Z (caida r) / 10 else current_alt d in
    let datos :=
      {| timestamp := ahora;
         temperature := temperatura;
         humidity := humedad_rel;
         altitude := altitud;
         battery := Z.quot (Qnum bateria) (Z.pos (Qden bateria));
         gps :=
           if (anomaly_type =? 2)%Z then None
           else Some (current_lat d, current_lon d) |} in
    let nuevo (velocidad : bool) :=
      {| connected := connected d;
         reading_count := count;
         gps_loss_count := perdidas;
         battery_level := bateria;
         current_lat := current_lat d;
         current_lon := current_lon d;
         current_alt := current_alt d;
         prev_lat := if velocidad then current_lat d else prev_lat d;
         prev_lon := if velocidad then current_lon d else prev_lon d |} in
    match respuesta with
    | Devuelve rc =>
        let llamada := {| topic := MQTT_TOPIC; data := datos; qos := 0 |} in
        if (rc =? MQTT_ERR_SUCCESS)%Z then (nuevo has_anomaly, [llamada])
        else (nuevo false, [llamada])
    | Lanza => (nuevo false, [])
    end.

(** [on_connect] and [on_disconnect]. *)
Definition on_connect (d : Dron) (rc : Z) : Dron :=
  {| connected := (rc =? 0)%Z;
     reading_count := reading_count d;
     gps_loss_count := gps_loss_count d;
     battery_level := battery_level d;
     current_lat := current_lat d;
     current_lon := current_lon d;
     current_alt := current_alt d;
     prev_lat := prev_lat d;
     prev_lon := prev_lon d |}.

Definition on_disconnect (d : Dron) : Dron :=
  {| connected := false;
     reading_count := reading_count d;
     gps_loss_count := gps_loss_count d;
     battery_level := battery_level d;
     current_lat := current_lat d;
     current_lon := current_lon d;
     current_alt := current_alt d;
     prev_lat := prev_lat d;
     prev_lon := prev_lon d |}.

(** What happens while the loop of [main] runs: a turn of the loop, which
    calls [publish_telemetry], or a callback of the client between two
    turns. *)
Inductive Suceso : Type :=
| Conecta (rc : Z)
| Desconecta
| Publica (ahora : string) (r : Azar) (respuesta : Respuesta).

(** A run of the loop of [main]: the variables at the end and the calls
    of [publish] that returned.  ([flight_time], which only the printed
    statistics read, is not among the variables of the model.) *)
Fixpoint ejecutar (d : Dron) (sucesos : list Suceso) : Dron * list Publicacion :=
  match sucesos with
  | [] => (d, [])
  | Conecta rc :: resto => ejecutar (on_connect d rc) resto
  | Desconecta :: resto => ejecutar (on_disconnect d) resto
  | Publica ahora r respuesta :: resto =>
      let '(d', llamadas) := publish_telemetry d ahora r respuesta in
      let '(final, otras) := ejecutar d' resto in
      (final, (llamadas ++ otras)%list)
  end.

End Intentitobb.

(** ** The quantities of the specification

    The specification speaks of the mean, the minimum, the maximum and
    the range of a pixel array.  They are defined here on their own,
    independently of the scans of the code. *)

Module Spec.

(** The verdict that the specification calls "smoke" is the string
    that the scripts exchange for it. *)
Definition smoke : string := "humo".
Definition normal : string := "normal".

Definition total (l : list Z) : Z := fold_right Z.add 0 l.

(** The arithmetic mean, as a rational number. *)
Definition mean (l : list Z) : Q := Qmake (total l) (Pos.of_nat (List.length l)).

(** [m] is the least (greatest) element of [l]. *)
Definition is_min (l : list Z) (m : Z) : Prop :=
  In m l /\ forall x, In x l -> m <= x.
Definition is_max (l : list Z) (m : Z) : Prop :=
  In m l /\ forall x, In x l -> x <= m.

Fixpoint minimum (l : list Z) : Z :=
  match l with
  | [] => 0
  | [x] => x
  | x :: l' => Z.min x (minimum l')
  end.

Fixpoint maximum (l : list Z) : Z :=
  match l with
  | [] => 0
  | [x] => x
  | x :: l' => Z.max x (maximum l')
  end.

(** The range of [l]: greatest minus least element. *)
Definition range (l : list Z) : Z := maximum l - minimum l.

(** The threshold rule of the specification. *)
Definition smoke_rule (l : list Z) : Prop :=
  ((mean l < 60)%Q /\ range l < 25) \/ ((mean l < 80)%Q /\ range l < 20).

(** A pixel array: every sample is in [0,255]. *)
Definition pixels (l : list Z) : Prop := Forall (fun p => 0 <= p <= 255) l.

(** *** The capture protocol *)

(** The lines of a capture stream that carry a start marker, an end
    marker. *)
Definition start_marker (l : string) : bool :=
  Py.str_in "INICIO DATOS CSV" l || Py.str_in "===" l.

Definition end_marker (l : string) : bool :=
  Py.str_in "FIN DATOS CSV" l || Py.str_in "Copia estos datos" l.

(** The shape of a data line: a comma in it, no ["#"] in front. *)
Definition data_shape (l : string) : bool :=
  Py.str_in "," l && negb (String.prefix "#" l).

(** The lines that were read: the polls that returned some text. *)
Definition lines_read (polls : list (option string)) : list string :=
  flat_map (fun o => match o with
                     | Some (String c l) => [String c l]
                     | _ => []
                     end) polls.

Fixpoint take_while {A : Type} (p : A -> bool) (l : list A) : list A :=
  match l with
  | [] => []
  | x :: l' => if p x then x :: take_while p l' else []
  end.

Fixpoint drop_while {A : Type} (p : A -> bool) (l : list A) : list A :=
  match l with
  | [] => []
  | x :: l' => if p x then drop_while p l' else l
  end.

(** A line closes the capture when it carries an end marker and no
    start marker. *)
Definition closes (l : string) : bool := negb (start_marker l) && end_marker l.

(** The lines read before the first closing line (all of them when
    there is none). *)
Definition before_close (ls : list string) : list string :=
  take_while (fun l => negb (closes l)) ls.

(** The lines that follow the first line with a start marker. *)
Definition after_start (ls : list string) : list string :=
  tl (drop_while (fun l => negb (start_marker l)) ls).

(** The data lines of a stream: after the first start marker and before
    the first closing line, the lines shaped like data that carry no
    start marker themselves. *)
Definition data_lines (ls : list string) : list string :=
  filter (fun l => negb (start_marker l) && data_shape l)
         (after_start (before_close ls)).

(** The reading of the specification, position by position: the line at
    position [i] is a data line when a line with a start marker stands
    strictly before it, a line with an end marker strictly after it, and
    it is shaped like data. *)
Definition between_markers (ls : list string) (i : nat) : Prop :=
  exists l, nth_error ls i = Some l
    /\ (exists j s, (j < i)%nat /\ nth_error ls j = Some s /\ start_marker s = true)
    /\ (exists k e, (i < k)%nat /\ nth_error ls k = Some e /\ end_marker e = true)
    /\ data_shape l = true.

(** *** The CSV text format *)

(** Every character of [s] satisfies [p]. *)
Fixpoint all_chars (p : ascii -> bool) (s : string) : bool :=
  match s with
  | EmptyString => true
  | String c s' => p c && all_chars p s'
  end.

(** Strings without a comma, without white space. *)
Definition no_comma (s : string) : bool :=
  all_chars (fun c => negb (Ascii.eqb c ",")) s.

Definition no_space (s : string) : bool :=
  all_chars (fun c => negb (Py.is_space c)) s.

Definition digit_char (d : Z) : ascii := ascii_of_nat (48 + Z.to_nat d).

(** The decimal digits of [n], most significant first, put in front of
    [acc]; [fuel] bounds the number of digits. *)
Fixpoint digits (fuel : nat) (n : Z) (acc : string) : string :=
  match fuel with
  | O => acc
  | S fuel' =>
      let acc' := String (digit_char (n mod 10)) acc in
      if n <? 10 then acc' else digits fuel' (n / 10) acc'
  end.

(** The decimal numeral of an integer. *)
Definition decimal (z : Z) : string :=
  if z <? 0 then String "-" (digits (S (Z.to_nat (Z.log2 (- z)))) (- z) EmptyString)
  else digits (S (Z.to_nat (Z.log2 z))) z EmptyString.

(** A line of comma-separated decimal integers. *)
Definition csv_line (row : list Z) : string :=
  String.concat "," (map decimal row).


(** The lines of [l] up to its first line that satisfies [p], that line
    included. *)
Fixpoint take_through {A : Type} (p : A -> bool) (l : list A) : list A :=
  match l with
  | [] => []
  | x :: l' => if p x then [x] else x :: take_through p l'
  end.

(** A line that [csv.reader] only cuts at its commas: no quote character
    in it, no carriage return or line feed, no NUL. *)
Definition csv_plain (s : string) : bool :=
  all_chars (fun c => negb (existsb (Nat.eqb (nat_of_ascii c)) [0; 10; 13; 34]%nat)) s.

(** The lines of a CSV file that are not skipped: the empty ones and the
    comments are. *)
Definition csv_kept (l : string) : bool :=
  Py.truthy l && negb (String.prefix "#" l).

(** The number of turns of the loop of the drone simulator among the
    happenings of a run. *)
Fixpoint drone_turns (sucesos : list Intentitobb.Suceso) : nat :=
  match sucesos with
  | [] => O
  | Intentitobb.Publica _ _ _ :: resto => S (drone_turns resto)
  | _ :: resto => drone_turns resto
  end.

(** *** The monitoring loop *)



(** *** The counters of the publisher *)

(** Every message that was published is counted once as smoke or once as
    normal. *)
Definition counters_agree (self : ArduinoDetection.Estado) : Prop :=
  ArduinoDetection.total_envios self
  = ArduinoDetection.envios_humo self + ArduinoDetection.envios_normal self.

(** The three counters of published messages are the same in two states. *)
Definition same_published (a b : ArduinoDetection.Estado) : Prop :=
  ArduinoDetection.total_envios a = ArduinoDetection.total_envios b
  /\ ArduinoDetection.envios_humo a = ArduinoDetection.envios_humo b
  /\ ArduinoDetection.envios_normal a = ArduinoDetection.envios_normal b.

End Spec.

(** ** Properties of the brightness classifier *)

Section Classifier.

Import ArduinoDetection.

Lemma minimum_is_min (x : Z) (l : list Z) : Spec.is_min (x :: l) (Spec.minimum (x :: l)).
Proof.
  revert x; induction l as [|y l IH]; intros x.
  - split; [now left|]. intros z [<-|[]]. cbn. lia.
  - destruct (IH y) as [Hin Hle].
    change (Spec.minimum (x :: y :: l)) with (Z.min x (Spec.minimum (y :: l))).
    split.
    + destruct (Z.min_spec x (Spec.minimum (y :: l))) as [[_ ->]|[_ ->]];
        [now left | now right].
    + intros z [<-|Hz]; [lia|]. specialize (Hle z Hz). lia.
Qed.

Lemma maximum_is_max (x : Z) (l : list Z) : Spec.is_max (x :: l) (Spec.maximum (x :: l)).
Proof.
  revert x; induction l as [|y l IH]; intros x.
  - split; [now left|]. intros z [<-|[]]. cbn. lia.
  - destruct (IH y) as [Hin Hle].
    change (Spec.maximum (x :: y :: l)) with (Z.max x (Spec.maximum (y :: l))).
    split.
    + destruct (Z.max_spec x (Spec.maximum (y :: l))) as [[_ ->]|[_ ->]];
        [now right | now left].
    + intros z [<-|Hz]; [lia|]. specialize (Hle z Hz). lia.
Qed.

(** The least and the greatest element of a list are unique, so the
    range of the specification does not depend on how they are found. *)
Lemma is_min_unique l a b : Spec.is_min l a -> Spec.is_min l b -> a = b.
Proof. intros [Ha Ha'] [Hb Hb']. specialize (Ha' b Hb). specialize (Hb' a Ha). lia. Qed.

Lemma is_max_unique l a b : Spec.is_max l a -> Spec.is_max l b -> a = b.
Proof. intros [Ha Ha'] [Hb Hb']. specialize (Ha' b Hb). specialize (Hb' a Ha). lia. Qed.

(** The scans of the code find them. *)
Lemma fold_min_out (xs : list Z) :
  forall x y, fold_left Z.min xs (Z.min x y) = Z.min x (fold_left Z.min xs y).
Proof.
  induction xs as [|z xs IH]; intros x y; cbn [fold_left]; [reflexivity|].
  now rewrite <- Z.min_assoc, IH.
Qed.

Lemma fold_max_out (xs : list Z) :
  forall x y, fold_left Z.max xs (Z.max x y) = Z.max x (fold_left Z.max xs y).
Proof.
  induction xs as [|z xs IH]; intros x y; cbn [fold_left]; [reflexivity|].
  now rewrite <- Z.max_assoc, IH.
Qed.

Lemma py_min_fold (xs : list Z) : forall x, Py.min x xs = Spec.minimum (x :: xs).
Proof.
  unfold Py.min. induction xs as [|y xs IH]; intros x; [reflexivity|].
  cbn [fold_left]. now rewrite fold_min_out, IH.
Qed.

Lemma py_max_fold (xs : list Z) : forall x, Py.max x xs = Spec.maximum (x :: xs).
Proof.
  unfold Py.max. induction xs as [|y xs IH]; intros x; [reflexivity|].
  cbn [fold_left]. now rewrite fold_max_out, IH.
Qed.

Lemma py_sum_total (l : list Z) : Py.sum l = Spec.total l.
Proof.
  unfold Py.sum.
  assert (H : forall a, fold_left Z.add l a = a + Spec.total l).
  { induction l as [|x l IH]; intros a; unfold Spec.total; cbn [fold_left fold_right];
      [lia|]. rewrite IH. unfold Spec.total. lia. }
  now rewrite H.
Qed.

(** The mean that the code computes is the mean of the specification. *)
Lemma py_mean (x : Z) (xs : list Z) :
  (Py.truediv (Py.sum (x :: xs)) (Py.len (x :: xs)) == Spec.mean (x :: xs))%Q.
Proof.
  unfold Py.truediv, Spec.mean, Py.len. rewrite py_sum_total.
  rewrite (Qmake_Qdiv (Spec.total (x :: xs))).
  replace (Z.of_nat (List.length (x :: xs)))
    with (Z.pos (Pos.of_nat (List.length (x :: xs)))); [reflexivity|].
  cbn [List.length]. rewrite <- Pos.of_nat_succ. lia.
Qed.

Lemma Qltb_lt (x y : Q) : Py.Qltb x y = true <-> (x < y)%Q.
Proof.
  unfold Py.Qltb. rewrite negb_true_iff, <- not_true_iff_false, Qle_bool_iff.
  split; [apply Qnot_le_lt | apply Qlt_not_le].
Qed.

(** Against an integer threshold the mean is compared without any
    division: [mean l < k] says [sum l < k * len l]. *)
Lemma mean_lt_int (l : list Z) (k : Z) :
  l <> [] -> (Spec.mean l < inject_Z k)%Q <-> Spec.total l < k * Py.len l.
Proof.
  intros Hl. unfold Spec.mean, Qlt, Py.len. cbn [Qnum Qden inject_Z].
  destruct l as [|x xs]; [congruence|].
  cbn [List.length]. rewrite <- Pos.of_nat_succ.
  rewrite Zpos_P_of_succ_nat, Nat2Z.inj_succ. lia.
Qed.

Lemma promedio_ltP (x : Z) (xs : list Z) (k : Q) :
  reflect (Spec.mean (x :: xs) < k)%Q
          (Py.Qltb (Py.truediv (Py.sum (x :: xs)) (Py.len (x :: xs))) k).
Proof. apply iff_reflect. now rewrite Qltb_lt, py_mean. Qed.

(** The classifier, read on the quantities of the specification. *)
Lemma generar_anomalia_rule (x : Z) (xs : list Z) :
  generar_anomalia (x :: xs) = Spec.smoke <-> Spec.smoke_rule (x :: xs).
Proof.
  unfold generar_anomalia, Spec.smoke_rule, Spec.range, Spec.smoke.
  rewrite py_min_fold, py_max_fold.
  destruct (promedio_ltP x xs 60) as [H60|H60];
    destruct (promedio_ltP x xs 80) as [H80|H80];
    destruct (Z.ltb_spec (Spec.maximum (x :: xs) - Spec.minimum (x :: xs)) 25) as [H25|H25];
    destruct (Z.ltb_spec (Spec.maximum (x :: xs) - Spec.minimum (x :: xs)) 20) as [H20|H20];
    cbn [andb]; split; intros H;
    try reflexivity; try discriminate H; try tauto; try lia;
    destruct H as [[A B]|[A B]]; try contradiction; lia.
Qed.

Lemma generar_anomalia_two_verdicts (l : list Z) :
  generar_anomalia l = Spec.smoke \/ generar_anomalia l = Spec.normal.
Proof.
  destruct l as [|x xs]; [now right|]. unfold generar_anomalia.
  repeat match goal with |- context [if ?b then _ else _] => destruct b end;
    auto.
Qed.

(** C1.  On a pixel array (integers in [0,255]) the classifier answers
    "smoke" (the string ["humo"] of the script) exactly when the array is
    not empty and its mean is below 60 with a range below 25, or its mean
    is below 80 with a range below 20, the range being the greatest minus
    the least sample; in every other case, the empty array included, it
    answers ["normal"]. *)
Theorem generar_anomalia_smoke_iff (l : list Z) :
  Spec.pixels l ->
  (generar_anomalia l = Spec.smoke <-> l <> [] /\ Spec.smoke_rule l)
  /\ (generar_anomalia l <> Spec.smoke -> generar_anomalia l = Spec.normal)
  /\ generar_anomalia [] = Spec.normal.
Proof.
  intros _. split; [|split; [|reflexivity]].
  - destruct l as [|x xs].
    + split; [discriminate | intros [H _]; congruence].
    + rewrite generar_anomalia_rule. split; [split; [discriminate|assumption] | tauto].
  - destruct (generar_anomalia_two_verdicts l); tauto.
Qed.

Lemma generar_anomalia_smoke_iff_witness :
  Spec.pixels [50; 60; 55]
  /\ ((generar_anomalia [50; 60; 55] = Spec.smoke
       <-> [50; 60; 55] <> [] /\ Spec.smoke_rule [50; 60; 55])
      /\ (generar_anomalia [50; 60; 55] <> Spec.smoke
          -> generar_anomalia [50; 60; 55] = Spec.normal)
      /\ generar_anomalia [] = Spec.normal).
Proof.
  assert (H : Spec.pixels [50; 60; 55]) by (repeat constructor; lia).
  split; [exact H | exact (generar_anomalia_smoke_iff [50; 60; 55] H)].
Defined.

(** The two one-sided readings of the rule that the specification lists
    among its testable properties. *)
Lemma generar_anomalia_dark_flat (l : list Z) :
  l <> [] -> (Spec.mean l < 60)%Q -> Spec.range l < 25 ->
  generar_anomalia l = Spec.smoke.
Proof.
  intros Hl Hm Hr. destruct l as [|x xs]; [congruence|].
  apply generar_anomalia_rule. left. now split.
Qed.

Lemma generar_anomalia_bright_or_contrasted (l : list Z) :
  (80 <= Spec.mean l)%Q \/ (20 <= Spec.range l /\ (60 <= Spec.mean l)%Q) ->
  generar_anomalia l = Spec.normal.
Proof.
  intros H. destruct (generar_anomalia_two_verdicts l) as [Hs|Hn]; [|exact Hn].
  destruct l as [|x xs]; [reflexivity|].
  apply generar_anomalia_rule in Hs.
  destruct Hs as [[A B]|[A B]], H as [C|[C D]];
    try lia;
    try (exfalso; apply (Qlt_not_le _ _ A); assumption);
    exfalso; apply (Qlt_not_le _ _ A); eapply Qle_trans; [|eassumption]; discriminate.
Qed.

(** C4, as the specification words it, fails: a mean of exactly 60 still
    passes the second test (mean below 80), and a range of exactly 20
    still passes the first one (range below 25).  A uniform array of
    60s, and the array [10; 30], are both classified as smoke. *)
Lemma boundary_60_and_20_are_smoke :
  (Spec.pixels [60; 60] /\ (Spec.mean [60; 60]%Z == 60)%Q
   /\ generar_anomalia [60; 60] = Spec.smoke)
  /\ (Spec.pixels [10; 30] /\ Spec.range [10; 30] = 20
      /\ generar_anomalia [10; 30] = Spec.smoke).
Proof.
  repeat split; try reflexivity; repeat constructor; lia.
Qed.

(** C4, amended.  On a non-empty pixel array, a mean of exactly 80 or a
    range of exactly 25 never gives smoke; a mean of exactly 60 gives
    smoke exactly when the range is below 20, and a range of exactly 20
    gives smoke exactly when the mean is below 60: every comparison is
    strict, but each boundary value of the first test is still inside the
    second test, and conversely. *)
Theorem generar_anomalia_boundaries (l : list Z) :
  Spec.pixels l -> l <> [] ->
  ((Spec.mean l == 80)%Q \/ Spec.range l = 25 -> generar_anomalia l = Spec.normal)
  /\ ((Spec.mean l == 60)%Q -> (generar_anomalia l = Spec.smoke <-> Spec.range l < 20))
  /\ (Spec.range l = 20 -> (generar_anomalia l = Spec.smoke <-> (Spec.mean l < 60)%Q)).
Proof.
  intros _ Hl. destruct l as [|x xs]; [congruence|]. clear Hl.
  rewrite generar_anomalia_rule. unfold Spec.smoke_rule.
  split; [|split].
  - intros H.
    destruct (generar_anomalia_two_verdicts (x :: xs)) as [Hs|Hn]; [|exact Hn].
    apply generar_anomalia_rule in Hs. exfalso.
    destruct H as [H|H], Hs as [[A B]|[A B]]; try lia.
    + rewrite H in A. discriminate A.
    + rewrite H in A. now apply Qlt_irrefl in A.
  - intros H. rewrite H. split.
    + intros [[A _]|[_ B]]; [now apply Qlt_irrefl in A | exact B].
    + intros B. right. split; [reflexivity | exact B].
  - intros H. rewrite H. split.
    + intros [[A _]|[_ B]]; [exact A | lia].
    + intros A. left. split; [exact A | lia].
Qed.

Lemma generar_anomalia_boundaries_witness :
  Spec.pixels [70; 90] /\ [70; 90] <> []
  /\ (((Spec.mean [70; 90]%Z == 80)%Q \/ Spec.range [70; 90] = 25
       -> generar_anomalia [70; 90] = Spec.normal)
      /\ ((Spec.mean [70; 90]%Z == 60)%Q
          -> (generar_anomalia [70; 90] = Spec.smoke <-> Spec.range [70; 90] < 20))
      /\ (Spec.range [70; 90] = 20
          -> (generar_anomalia [70; 90] = Spec.smoke <-> (Spec.mean [70; 90]%Z < 60)%Q))).
Proof.
  assert (H : Spec.pixels [70; 90]) by (repeat constructor; lia).
  assert (N : [70; 90] <> []) by discriminate.
  split; [exact H | split; [exact N | exact (generar_anomalia_boundaries [70; 90] H N)]].
Defined.

End Classifier.

(** ** Properties of the capture protocol *)

Section Capture.

Import ArduinoDetection.

Lemma lines_read_cons_none polls :
  Spec.lines_read (None :: polls) = Spec.lines_read polls.
Proof. reflexivity. Qed.

Lemma lines_read_cons_empty polls :
  Spec.lines_read (Some EmptyString :: polls) = Spec.lines_read polls.
Proof. reflexivity. Qed.

Lemma lines_read_cons_line c l polls :
  Spec.lines_read (Some (String c l) :: polls)
  = String c l :: Spec.lines_read polls.
Proof. reflexivity. Qed.

(** The loop, once a start marker has been seen. *)
Lemma bucle_captura_capturando polls :
  forall datos,
    bucle_captura true datos polls
    = (datos ++ filter (fun l => negb (Spec.start_marker l) && Spec.data_shape l)
                       (Spec.before_close (Spec.lines_read polls)))%list.
Proof.
  induction polls as [|[[|c l]|] polls IH]; intros datos.
  - cbn. now rewrite app_nil_r.
  - rewrite lines_read_cons_empty. apply IH.
  - rewrite lines_read_cons_line.
    cbn [bucle_captura Py.truthy Spec.before_close Spec.take_while].
    unfold Spec.closes.
    change (es_inicio (String c l)) with (Spec.start_marker (String c l)).
    change (es_fin (String c l)) with (Spec.end_marker (String c l)).
    destruct (Spec.start_marker (String c l)) eqn:Hs.
    + cbn [negb andb filter]. rewrite Hs. cbn [negb andb]. apply IH.
    + destruct (Spec.end_marker (String c l)) eqn:He; cbn [negb andb filter].
      * now rewrite app_nil_r.
      * rewrite Hs. cbn [negb andb].
        change (Py.str_in "," (String c l) && negb (Py.startswith (String c l) "#"))
          with (Spec.data_shape (String c l)).
        destruct (Spec.data_shape (String c l)).
        -- rewrite IH, <- app_assoc. reflexivity.
        -- apply IH.
  - rewrite lines_read_cons_none. apply IH.
Qed.

(** The loop, before any start marker. *)
Lemma bucle_captura_esperando polls :
  forall datos,
    bucle_captura false datos polls
    = (datos ++ Spec.data_lines (Spec.lines_read polls))%list.
Proof.
  unfold Spec.data_lines.
  induction polls as [|[[|c l]|] polls IH]; intros datos.
  - cbn. now rewrite app_nil_r.
  - rewrite lines_read_cons_empty. apply IH.
  - rewrite lines_read_cons_line.
    cbn [bucle_captura Py.truthy Spec.before_close Spec.take_while].
    unfold Spec.closes.
    change (es_inicio (String c l)) with (Spec.start_marker (String c l)).
    change (es_fin (String c l)) with (Spec.end_marker (String c l)).
    destruct (Spec.start_marker (String c l)) eqn:Hs.
    + cbn [negb andb]. unfold Spec.after_start.
      cbn [Spec.drop_while]. rewrite Hs. cbn [negb tl].
      apply bucle_captura_capturando.
    + destruct (Spec.end_marker (String c l)) eqn:He; cbn [negb andb].
      * cbn. now rewrite app_nil_r.
      * unfold Spec.after_start. cbn [Spec.drop_while]. rewrite Hs. cbn [negb].
        apply IH.
  - rewrite lines_read_cons_none. apply IH.
Qed.

(** The loop of the interactive reader captures the same lines. *)
Lemma reader_bucle_captura polls :
  forall capturando consola datos,
    snd (ArduinoReader.bucle_captura capturando consola datos polls)
    = bucle_captura capturando datos polls.
Proof.
  induction polls as [|[l|] polls IH]; intros capturando consola datos.
  - reflexivity.
  - cbn [ArduinoReader.bucle_captura bucle_captura]. unfold es_inicio, es_fin.
    repeat match goal with
           | |- context [if ?b then _ else _] => destruct b
           end; try apply IH; reflexivity.
  - apply IH.
Qed.

(** C3, as the specification words it, fails in both directions.  A data
    line is accepted when the wait expires without any end marker; and a
    line that stands between the two markers, with a comma and without a
    leading ["#"], is not accepted when it carries a start marker. *)
Lemma capture_not_between_markers :
  (capturar_datos_csv true [Some "==="; Some "1,2"] = Some ["1,2"]
   /\ existsb Spec.end_marker ["==="; "1,2"] = false)
  /\ (capturar_datos_csv true
        [Some "==="; Some "===,1,2"; Some "FIN DATOS CSV"] = None
      /\ Spec.between_markers ["==="; "===,1,2"; "FIN DATOS CSV"] 1).
Proof.
  split; [split; reflexivity|]. split; [reflexivity|].
  exists "===,1,2". split; [reflexivity|]. split; [|split].
  - exists 0%nat, "===". repeat split. lia.
  - exists 2%nat, "FIN DATOS CSV". repeat split. lia.
  - reflexivity.
Qed.

(** C3, amended.  The lines that the capture loop accepts are, in their
    order, the lines read after the first line with a start marker and
    before the first line that carries an end marker and no start marker
    (or before the wait expires, when no such line comes), that contain
    a comma, do not start with ["#"] and carry no start marker.  Both
    scripts capture these lines, and the stream "noise", "===", "1,2",
    "3,4", "FIN DATOS CSV" gives "1,2" and "3,4". *)
Theorem capture_accepts_data_lines (polls : list (option string)) :
  bucle_captura false [] polls = Spec.data_lines (Spec.lines_read polls)
  /\ snd (ArduinoReader.bucle_captura false [] [] polls)
     = Spec.data_lines (Spec.lines_read polls)
  /\ capturar_datos_csv true
       [Some "noise"; Some "==="; Some "1,2"; Some "3,4"; Some "FIN DATOS CSV"]
     = Some ["1,2"; "3,4"].
Proof.
  split; [|split].
  - apply (bucle_captura_esperando polls []).
  - rewrite reader_bucle_captura. apply (bucle_captura_esperando polls []).
  - reflexivity.
Qed.

(** Without a closing line, every line read counts. *)
Lemma before_close_all (ls : list string) :
  forallb (fun l => negb (Spec.end_marker l)) ls = true ->
  Spec.before_close ls = ls.
Proof.
  unfold Spec.before_close, Spec.closes.
  induction ls as [|l ls IH]; [reflexivity|].
  cbn [forallb Spec.take_while]. intros H.
  apply andb_true_iff in H. destruct H as [Hl Hls].
  apply negb_true_iff in Hl. rewrite Hl, andb_false_r. cbn [negb].
  now rewrite IH.
Qed.

(** C7, as the specification words it, fails: the wait expires without
    an end marker, and the two data lines read after the start marker
    are returned. *)
Lemma timeout_returns_partial_data :
  capturar_datos_csv true
    [Some "INICIO DATOS CSV"; Some "10,20,30"; None; Some "40,50,60"; None]
  = Some ["10,20,30"; "40,50,60"]
  /\ forallb (fun l => negb (Spec.end_marker l))
       (Spec.lines_read
          [Some "INICIO DATOS CSV"; Some "10,20,30"; None; Some "40,50,60"; None])
     = true.
Proof. split; reflexivity. Qed.

(** C7, amended.  When no line with an end marker is read before the
    wait expires, the capture returns the data lines accepted so far (the
    comma-bearing lines without a leading ["#"] and without a start
    marker that follow the first start marker), and reports that nothing
    was captured only when there is no such line. *)
Theorem timeout_returns_accepted_lines (polls : list (option string)) :
  forallb (fun l => negb (Spec.end_marker l)) (Spec.lines_read polls) = true ->
  let accepted :=
    filter (fun l => negb (Spec.start_marker l) && Spec.data_shape l)
           (Spec.after_start (Spec.lines_read polls)) in
  (accepted = [] -> capturar_datos_csv true polls = None)
  /\ (accepted <> [] -> capturar_datos_csv true polls = Some accepted).
Proof.
  intros Hno accepted. unfold capturar_datos_csv. cbn [negb].
  rewrite (bucle_captura_esperando polls []). cbn [app].
  unfold Spec.data_lines. rewrite (before_close_all _ Hno).
  fold accepted. destruct accepted; split; intros H; congruence.
Qed.

Lemma timeout_returns_accepted_lines_witness :
  forallb (fun l => negb (Spec.end_marker l))
          (Spec.lines_read [Some "==="; Some "7,8,9"; None]) = true
  /\ capturar_datos_csv true [Some "==="; Some "7,8,9"; None] = Some ["7,8,9"].
Proof.
  assert (H : forallb (fun l => negb (Spec.end_marker l))
                      (Spec.lines_read [Some "==="; Some "7,8,9"; None]) = true)
    by reflexivity.
  split; [exact H|].
  apply (proj2 (timeout_returns_accepted_lines _ H)). discriminate.
Defined.

End Capture.

(** ** Properties of the CSV-line extractor *)

Section Extractor.

Import ArduinoDetection.

(** *** Splitting a joined line *)

Lemma split_token_then_comma (t r : string) :
  Spec.no_comma t = true ->
  Py.split "," (t ++ String "," r) = t :: Py.split "," r.
Proof.
  unfold Spec.no_comma. induction t as [|c t IH]; intros H; [reflexivity|].
  cbn [Spec.all_chars] in H. apply andb_true_iff in H. destruct H as [Hc Ht].
  apply negb_true_iff in Hc.
  cbn [append Py.split]. rewrite Hc, (IH Ht). reflexivity.
Qed.

Lemma split_token (t : string) :
  Spec.no_comma t = true -> Py.split "," t = [t].
Proof.
  unfold Spec.no_comma. induction t as [|c t IH]; intros H; [reflexivity|].
  cbn [Spec.all_chars] in H. apply andb_true_iff in H. destruct H as [Hc Ht].
  apply negb_true_iff in Hc.
  cbn [Py.split]. rewrite Hc, (IH Ht). reflexivity.
Qed.

Lemma split_concat (t : string) (ts : list string) :
  forallb Spec.no_comma (t :: ts) = true ->
  Py.split "," (String.concat "," (t :: ts)) = t :: ts.
Proof.
  revert t. induction ts as [|u ts IH]; intros t H;
    cbn [forallb] in H; apply andb_true_iff in H; destruct H as [Ht Hts].
  - now apply split_token.
  - change (String.concat "," (t :: u :: ts))
      with (t ++ String "," (String.concat "," (u :: ts))).
    rewrite (split_token_then_comma _ _ Ht), (IH u Hts). reflexivity.
Qed.

(** *** Stripping a string without white space *)

Lemma rstrip_no_space (s : string) : Spec.no_space s = true -> Py.rstrip s = s.
Proof.
  unfold Spec.no_space. induction s as [|c s IH]; intros H; [reflexivity|].
  cbn [Spec.all_chars] in H. apply andb_true_iff in H. destruct H as [Hc Hs].
  apply negb_true_iff in Hc.
  cbn [Py.rstrip]. rewrite (IH Hs), Hc. now destruct s.
Qed.

Lemma strip_no_space (s : string) : Spec.no_space s = true -> Py.strip s = s.
Proof.
  intros H. unfold Py.strip.
  assert (Hl : Py.lstrip s = s).
  { destruct s as [|c s]; [reflexivity|].
    unfold Spec.no_space in H. cbn [Spec.all_chars] in H.
    apply andb_true_iff in H. destruct H as [Hc _].
    apply negb_true_iff in Hc. cbn [Py.lstrip]. now rewrite Hc. }
  rewrite Hl. now apply rstrip_no_space.
Qed.

(** *** Reading back a decimal numeral *)

Lemma digit_char_cases (d : Z) :
  0 <= d < 10 ->
  Py.is_digit (Spec.digit_char d) = true
  /\ Py.digit_value (Spec.digit_char d) = d
  /\ Py.is_space (Spec.digit_char d) = false
  /\ Ascii.eqb (Spec.digit_char d) "," = false.
Proof.
  intros H.
  assert (C : d = 0 \/ d = 1 \/ d = 2 \/ d = 3 \/ d = 4 \/ d = 5
              \/ d = 6 \/ d = 7 \/ d = 8 \/ d = 9) by lia.
  repeat destruct C as [->|C]; try subst d; repeat split.
Qed.

Lemma digits_all_chars (p : ascii -> bool) :
  (forall d, 0 <= d < 10 -> p (Spec.digit_char d) = true) ->
  forall fuel n acc,
    Spec.all_chars p acc = true ->
    Spec.all_chars p (Spec.digits fuel n acc) = true.
Proof.
  intros Hp. induction fuel as [|fuel IH]; intros n acc Hacc; [exact Hacc|].
  cbn [Spec.digits].
  assert (H : Spec.all_chars p (String (Spec.digit_char (n mod 10)) acc) = true).
  { cbn [Spec.all_chars]. rewrite Hp, Hacc; [reflexivity|].
    apply Z.mod_pos_bound. lia. }
  destruct (n <? 10); [exact H | now apply IH].
Qed.

Lemma digits_not_empty (fuel : nat) :
  forall n c acc, exists c' r, Spec.digits fuel n (String c acc) = String c' r.
Proof.
  induction fuel as [|fuel IH]; intros n c acc; [now exists c, acc|].
  cbn [Spec.digits]. destruct (n <? 10); [eauto | apply IH].
Qed.

(** Reading the digits that were written for [n] appends them to the
    number read so far. *)
Lemma int_digits_digits (f : nat) :
  forall n s, 0 <= n < 2 ^ Z.of_nat (S f) ->
    exists m, forall a prev,
      Py.int_digits a prev (Spec.digits (S f) n s)
      = Py.int_digits (a * m + n) true s.
Proof.
  assert (step : forall n s a prev,
             Py.int_digits a prev (String (Spec.digit_char (n mod 10)) s)
             = Py.int_digits (10 * a + n mod 10) true s).
  { intros n s a prev.
    destruct (digit_char_cases (n mod 10)) as (Hd & Hv & _);
      [apply Z.mod_pos_bound; lia|].
    cbn [Py.int_digits]. now rewrite Hd, Hv. }
  induction f as [|f IH]; intros n s Hn.
  - exists 10. intros a prev.
    change (2 ^ Z.of_nat 1) with 2 in Hn.
    cbn [Spec.digits]. destruct (Z.ltb_spec n 10); [|lia].
    rewrite step, Z.mod_small by lia. f_equal. lia.
  - change (Spec.digits (S (S f)) n s)
      with (if n <? 10 then String (Spec.digit_char (n mod 10)) s
            else Spec.digits (S f) (n / 10) (String (Spec.digit_char (n mod 10)) s)).
    destruct (Z.ltb_spec n 10) as [Hlt|Hge].
    + exists 10. intros a prev. rewrite step, Z.mod_small by lia. f_equal. lia.
    + assert (Hdiv : 0 <= n / 10 < 2 ^ Z.of_nat (S f)).
      { split; [apply Z.div_pos; lia|].
        apply Z.div_lt_upper_bound; [lia|].
        rewrite (Nat2Z.inj_succ (S f)), Z.pow_succ_r in Hn by lia. lia. }
      destruct (IH (n / 10) (String (Spec.digit_char (n mod 10)) s) Hdiv) as [m Hm].
      exists (10 * m). intros a prev. rewrite Hm, step. f_equal.
      pose proof (Z.div_mod n 10). lia.
Qed.

Lemma log2_fuel (n : Z) : 0 <= n -> n < 2 ^ Z.of_nat (S (Z.to_nat (Z.log2 n))).
Proof.
  intros Hn. rewrite Nat2Z.inj_succ, Z2Nat.id by apply Z.log2_nonneg.
  destruct (Z.eq_dec n 0) as [->|Hz]; [reflexivity|].
  apply Z.log2_spec. lia.
Qed.

(** A string that starts with a digit and needs no stripping is read as
    an unsigned numeral. *)
Lemma int_unsigned (c : ascii) (r : string) :
  Py.is_digit c = true ->
  Py.strip (String c r) = String c r ->
  Py.int (String c r) = Py.int_digits 0 false (String c r).
Proof.
  intros Hd Hs. unfold Py.int. rewrite Hs.
  destruct c as [[] [] [] [] [] [] [] []]; try discriminate Hd; reflexivity.
Qed.

Lemma decimal_no_space (z : Z) : Spec.no_space (Spec.decimal z) = true.
Proof.
  unfold Spec.no_space, Spec.decimal.
  destruct (z <? 0); cbn [Spec.all_chars];
    apply digits_all_chars; try reflexivity;
    intros d Hd; now destruct (digit_char_cases d Hd) as (_ & _ & -> & _).
Qed.

Lemma decimal_no_comma (z : Z) : Spec.no_comma (Spec.decimal z) = true.
Proof.
  unfold Spec.no_comma, Spec.decimal.
  destruct (z <? 0); cbn [Spec.all_chars];
    apply digits_all_chars; try reflexivity;
    intros d Hd; now destruct (digit_char_cases d Hd) as (_ & _ & _ & ->).
Qed.

Lemma decimal_not_empty (z : Z) : Py.truthy (Spec.decimal z) = true.
Proof.
  unfold Spec.decimal. destruct (z <? 0); [reflexivity|].
  cbn [Spec.digits]. destruct (z <? 10); [reflexivity|].
  destruct (digits_not_empty (Z.to_nat (Z.log2 z)) (z / 10)
              (Spec.digit_char (z mod 10)) EmptyString) as (c & r & ->).
  reflexivity.
Qed.

(** [int] reads back the numeral of every integer. *)
Lemma int_decimal (z : Z) : Py.int (Spec.decimal z) = Some z.
Proof.
  pose proof (strip_no_space _ (decimal_no_space z)) as Hstrip.
  unfold Spec.decimal in *. destruct (Z.ltb_spec z 0) as [Hneg|Hpos].
  - unfold Py.int. rewrite Hstrip.
    destruct (int_digits_digits (Z.to_nat (Z.log2 (- z))) (- z) EmptyString)
      as [m Hm]; [split; [lia | apply log2_fuel; lia]|].
    rewrite Hm. cbn [Py.int_digits option_map]. f_equal. lia.
  - destruct (int_digits_digits (Z.to_nat (Z.log2 z)) z EmptyString)
      as [m Hm]; [split; [lia | apply log2_fuel; lia]|].
    assert (Hhead : exists c r,
               Spec.digits (S (Z.to_nat (Z.log2 z))) z EmptyString = String c r
               /\ Py.is_digit c = true).
    { pose proof (digits_all_chars Py.is_digit
                    (fun d Hd => proj1 (digit_char_cases d Hd))
                    (S (Z.to_nat (Z.log2 z))) z EmptyString eq_refl) as Hall.
      pose proof (decimal_not_empty z) as Hne. unfold Spec.decimal in Hne.
      destruct (Z.ltb_spec z 0); [lia|].
      destruct (Spec.digits (S (Z.to_nat (Z.log2 z))) z EmptyString) as [|c r];
        [discriminate Hne|].
      exists c, r. split; [reflexivity|].
      cbn [Spec.all_chars] in Hall. now apply andb_true_iff in Hall. }
    destruct Hhead as (c & r & Heq & Hc). rewrite Heq in *.
    rewrite (int_unsigned c r Hc Hstrip), Hm. cbn [Py.int_digits]. f_equal; lia.
Qed.

(** *** One line, then all of them *)

Lemma filter_keeps_all {A : Type} (p : A -> bool) (l : list A) :
  forallb p l = true -> filter p l = l.
Proof.
  induction l as [|x l IH]; [reflexivity|]. cbn [forallb filter]. intros H.
  apply andb_true_iff in H. destruct H as [-> Hl]. now rewrite IH.
Qed.

Lemma forallb_map_decimal (p : string -> bool) (row : list Z) :
  (forall z, p (Spec.decimal z) = true) ->
  forallb p (map Spec.decimal row) = true.
Proof.
  intros Hp. induction row as [|z row IH]; [reflexivity|].
  cbn [map forallb]. now rewrite Hp, IH.
Qed.






(** White space around a number and empty fields are passed over. *)
Example convertir_csv_a_array_blanks :
  convertir_csv_a_array ["1, 2 ,,3"; " 4,5,"] = Some [1; 2; 3; 4; 5].
Proof. reflexivity. Qed.

(** *** A token that is not a number *)

Lemma mapM_none {A B : Type} (f : A -> option B) (x : A) (xs : list A) :
  In x xs -> f x = None -> mapM f xs = None.
Proof.
  intros Hin Hx. induction xs as [|y ys IH]; [contradiction|].
  cbn [mapM]. destruct Hin as [->|Hin].
  - now rewrite Hx.
  - destruct (f y); [cbn [bind]; now rewrite (IH Hin) | reflexivity].
Qed.

Lemma convertir_desde_none (linea : string) (datos_csv : list string) :
  In linea datos_csv -> convertir_fila linea = None ->
  forall valores, convertir_desde valores datos_csv = None.
Proof.
  intros Hin Hl. induction datos_csv as [|l ls IH]; [contradiction|].
  intros valores. cbn [convertir_desde]. destruct Hin as [->|Hin].
  - now rewrite Hl.
  - destruct (convertir_fila l); [cbn [bind]; now apply IH | reflexivity].
Qed.

(** C6.  When a line holds a token that is not empty once stripped and
    that [int] refuses, the extraction raises: it returns no value at
    all, whatever the lines before and after the faulty one hold. *)
Theorem convertir_csv_a_array_fails_fast
        (datos_csv : list string) (linea val : string) :
  In linea datos_csv ->
  In val (Py.split "," linea) ->
  Py.truthy (Py.strip val) = true ->
  Py.int (Py.strip val) = None ->
  convertir_csv_a_array datos_csv = None.
Proof.
  intros Hl Hv Hne Hint. unfold convertir_csv_a_array.
  apply (convertir_desde_none linea); [exact Hl|].
  unfold convertir_fila.
  apply (mapM_none (fun v => Py.int (Py.strip v)) val); [|exact Hint].
  apply filter_In. now split.
Qed.

Lemma convertir_csv_a_array_fails_fast_witness :
  convertir_csv_a_array ["1,2"; "3,x,4"; "5"] = None.
Proof.
  apply (convertir_csv_a_array_fails_fast ["1,2"; "3,x,4"; "5"] "3,x,4" "x").
  - right; left; reflexivity.
  - right; left; reflexivity.
  - reflexivity.
  - reflexivity.
Defined.

(** *** The extractor of the image converter *)

Lemma decimal_head (z : Z) :
  exists c r, Spec.decimal z = String c r /\ Ascii.eqb c "#" = false.
Proof.
  assert (Hall : Spec.all_chars (fun c => negb (Ascii.eqb c "#")) (Spec.decimal z)
                 = true).
  { unfold Spec.decimal. destruct (z <? 0); cbn [Spec.all_chars];
      apply digits_all_chars; try reflexivity; intros d Hd;
      assert (C : d = 0 \/ d = 1 \/ d = 2 \/ d = 3 \/ d = 4 \/ d = 5
                  \/ d = 6 \/ d = 7 \/ d = 8 \/ d = 9) by lia;
      repeat destruct C as [->|C]; try subst d; reflexivity. }
  pose proof (decimal_not_empty z) as Hne.
  destruct (Spec.decimal z) as [|c r]; [discriminate Hne|].
  exists c, r. split; [reflexivity|].
  cbn [Spec.all_chars] in Hall. apply andb_true_iff in Hall.
  now apply negb_true_iff.
Qed.

Lemma leer_filas_csv_lines (rows : list (list Z)) :
  forall datos,
    ArduinoTest.leer_filas datos (map Spec.csv_line rows)
    = Some (datos ++ List.concat rows)%list.
Proof.
  induction rows as [|row rows IH]; intros datos;
    cbn [map ArduinoTest.leer_filas List.concat].
  - now rewrite app_nil_r.
  - destruct row as [|z row].
    + cbn [Spec.csv_line map String.concat ArduinoTest.csv_reader_fila app].
      apply IH.
    + assert (Hsplit : ArduinoTest.csv_reader_fila (Spec.csv_line (z :: row))
                       = Spec.decimal z :: map Spec.decimal row).
      { destruct (decimal_head z) as (c & r & Hz & _).
        unfold ArduinoTest.csv_reader_fila.
        assert (Hne : exists c' r', Spec.csv_line (z :: row) = String c' r').
        { unfold Spec.csv_line. cbn [map String.concat]. rewrite Hz.
          destruct (map Spec.decimal row); cbn [append]; eauto. }
        destruct Hne as (c' & r' & Hne). rewrite Hne, <- Hne.
        unfold Spec.csv_line. cbn [map].
        apply split_concat,
          (forallb_map_decimal Spec.no_comma (z :: row) decimal_no_comma). }
      rewrite Hsplit.
      destruct (decimal_head z) as (c & r & Hz & Hc).
      assert (Hhash : Py.startswith (Spec.decimal z) "#" = false).
      { rewrite Hz. unfold Py.startswith. cbn [String.prefix].
        destruct (ascii_dec "#" c) as [<-|_]; [discriminate Hc | reflexivity]. }
      rewrite Hhash.
      assert (Hfila : mapM Py.int
                        (filter (fun val => Py.truthy (Py.strip val))
                                (Spec.decimal z :: map Spec.decimal row))
                      = Some (z :: row)).
      { rewrite filter_keeps_all.
        - clear. change (Spec.decimal z :: map Spec.decimal row)
            with (map Spec.decimal (z :: row)).
          induction (z :: row) as [|a l IHl]; [reflexivity|].
          cbn [map mapM]. rewrite int_decimal. cbn [bind]. now rewrite IHl.
        - apply (forallb_map_decimal _ (z :: row)). intros z'.
          rewrite (strip_no_space _ (decimal_no_space z')).
          apply decimal_not_empty. }
      rewrite Hfila. cbn [bind]. now rewrite IH, app_assoc.
Qed.

(** X17.  The extractor of the converter reads rows of pixel values,
    written as lines of comma-separated decimal numerals, back as one
    array with the rows in their order, whatever the array library does
    with integers outside of [0,255]. *)
Lemma csv_a_array_flattens (np_uint8 : Z -> option Z) (rows : list (list Z)) :
  (forall p, 0 <= p <= 255 -> np_uint8 p = Some p) ->
  Forall Spec.pixels rows ->
  ArduinoTest.csv_a_array np_uint8 (map Spec.csv_line rows)
  = Some (List.concat rows).
Proof.
  intros Hnp Hrows. unfold ArduinoTest.csv_a_array.
  rewrite (leer_filas_csv_lines rows []). cbn [bind app].
  assert (Hall : Spec.pixels (List.concat rows)).
  { unfold Spec.pixels in *. apply Forall_concat. exact Hrows. }
  induction Hall as [|p l Hp _ IH]; [reflexivity|].
  cbn [mapM]. rewrite (Hnp p Hp). cbn [bind]. now rewrite IH.
Qed.

Lemma csv_a_array_flattens_witness :
  ((forall p, 0 <= p <= 255 -> Some p = Some p)
   /\ Forall Spec.pixels [[0; 128]; [255]])
  /\ ArduinoTest.csv_a_array (fun p => Some p) ["0,128"; "255"] = Some [0; 128; 255].
Proof.
  assert (H1 : forall p, 0 <= p <= 255 -> Some p = Some p) by reflexivity.
  assert (H2 : Forall Spec.pixels [[0; 128]; [255]])
    by (repeat constructor; lia).
  split; [split; assumption|].
  exact (csv_a_array_flattens (fun p => Some p) [[0; 128]; [255]] H1 H2).
Defined.

(** In the monitoring loop the exception leaves the turn before anything
    is published or counted. *)
Lemma ciclo_fails_fast (self : Estado) (e : Entrada) (datos_csv : list string) :
  capturar_datos_csv (comando_ok e) (lecturas e) = Some datos_csv ->
  convertir_csv_a_array datos_csv = None ->
  ciclo self e = None.
Proof. intros Hc Hx. unfold ciclo. now rewrite Hc, Hx. Qed.

End Extractor.

(** ** Properties of the publishers *)

Section Publisher.

Import ArduinoDetection.

(** A publication succeeds exactly when the link is up and the client
    answers with the success code. *)
Lemma enviar_a_flespi_true self datos anomalia ts resp :
  snd (fst (enviar_a_flespi self datos anomalia ts resp)) = true
  <-> is_connected_mqtt self = true /\ resp = Devuelve MQTT_ERR_SUCCESS.
Proof.
  unfold enviar_a_flespi.
  destruct (is_connected_mqtt self); cbn [negb]; [|cbn; intuition discriminate].
  destruct resp as [rc|]; [|cbn; intuition discriminate].
  destruct (Z.eqb_spec rc MQTT_ERR_SUCCESS) as [->|Hrc]; cbn; [intuition|].
  split; [discriminate | intros [_ H]; congruence].
Qed.

(** A call of [enviar_a_flespi] keeps the equality of the counters. *)
Lemma enviar_a_flespi_keeps_counters self datos anomalia ts resp :
  Spec.counters_agree self ->
  Spec.counters_agree (fst (fst (enviar_a_flespi self datos anomalia ts resp))).
Proof.
  unfold Spec.counters_agree, enviar_a_flespi. intros Hinv.
  destruct (is_connected_mqtt self); cbn [negb];
    [destruct resp as [rc|]; [destruct (rc =? MQTT_ERR_SUCCESS)|]|];
    cbn [fst snd contar_envio contar_error total_envios envios_humo envios_normal];
    try lia.
  destruct (anomalia =? "humo")%string; lia.
Qed.



(** The equality holds all along the monitoring loop. *)
Lemma ciclo_counters (self self' : Estado) (e : Entrada) llamadas :
  Spec.counters_agree self -> ciclo self e = Some (self', llamadas) ->
  Spec.counters_agree self'.
Proof.
  intros Hinv. unfold ciclo.
  destruct (capturar_datos_csv (comando_ok e) (lecturas e)) as [datos_csv|].
  - destruct (convertir_csv_a_array datos_csv) as [datos_imagen|];
      [|discriminate]. cbn [bind].
    pose proof (enviar_a_flespi_keeps_counters self datos_imagen
                  (generar_anomalia datos_imagen) (timestamp e) (respuesta e) Hinv)
      as Hstep.
    destruct (enviar_a_flespi self datos_imagen (generar_anomalia datos_imagen)
                (timestamp e) (respuesta e)) as [[s1 ok] calls].
    intros [= <- _]. exact Hstep.
  - intros [= <- _]. exact Hinv.
Qed.

Lemma monitoreo_counters (entradas : list Entrada) :
  forall self, Spec.counters_agree self ->
               Spec.counters_agree (monitoreo self entradas).
Proof.
  induction entradas as [|e es IH]; intros self Hinv; [exact Hinv|].
  cbn [monitoreo]. destruct (ciclo self e) as [[self' calls]|] eqn:Hc;
    [|exact Hinv].
  apply IH. exact (ciclo_counters self self' e calls Hinv Hc).
Qed.

(** C8, as the specification words it, fails for the drone simulator: it
    keeps no count of errors, and a publication attempted while the link
    is down leaves every variable of the script as it was. *)
Lemma drone_attempt_not_counted :
  Intentitobb.connected Intentitobb.init = false
  /\ Intentitobb.publish_telemetry Intentitobb.init "2025-01-01T00:00:00Z"
       {| Intentitobb.tipo := 1; Intentitobb.paso_lat := 0;
          Intentitobb.paso_lon := 0; Intentitobb.paso_alt := 0;
          Intentitobb.vuelta_lat := 0; Intentitobb.vuelta_lon := 0;
          Intentitobb.calor := 50; Intentitobb.frio := 0;
          Intentitobb.humedad := 0; Intentitobb.caida := -100 |}
       (Intentitobb.Devuelve 0)
     = (Intentitobb.init, []).
Proof. split; reflexivity. Qed.

(** C8, amended.  In the capture pipeline a publication attempted while
    the link is down is counted as an error and is not retried: the error
    counter grows by one, the counters of published, normal and smoke
    messages stay as they were, [False] is returned and the client is not
    called.  In the drone simulator such an attempt is not retried either
    and the client is not called, but nothing is counted: no variable of
    the script changes. *)
Theorem disconnected_publish_attempt
        (self : Estado) (datos : list Z) (anomalia : string) (ts : Z)
        (resp : Respuesta)
        (d : Intentitobb.Dron) (ahora : string) (r : Intentitobb.Azar)
        (resp' : Intentitobb.Respuesta) :
  is_connected_mqtt self = false ->
  Intentitobb.connected d = false ->
  (enviar_a_flespi self datos anomalia ts resp = (contar_error self, false, [])
   /\ errores (contar_error self) = errores self + 1
   /\ Spec.same_published (contar_error self) self)
  /\ Intentitobb.publish_telemetry d ahora r resp' = (d, []).
Proof.
  intros Hself Hd. unfold enviar_a_flespi, Intentitobb.publish_telemetry.
  rewrite Hself, Hd. cbn [negb]. repeat split.
Qed.

Lemma disconnected_publish_attempt_witness :
  (is_connected_mqtt init = false /\ Intentitobb.connected Intentitobb.init = false)
  /\ ((enviar_a_flespi init [12; 14] "humo" 1700000000 (Devuelve 0)
       = (contar_error init, false, [])
       /\ errores (contar_error init) = errores init + 1
       /\ Spec.same_published (contar_error init) init)
      /\ Intentitobb.publish_telemetry Intentitobb.init "2025-01-01T00:00:00Z"
           {| Intentitobb.tipo := 2; Intentitobb.paso_lat := 5;
              Intentitobb.paso_lon := -5; Intentitobb.paso_alt := 10;
              Intentitobb.vuelta_lat := 0; Intentitobb.vuelta_lon := 0;
              Intentitobb.calor := 60; Intentitobb.frio := 20;
              Intentitobb.humedad := 100; Intentitobb.caida := -200 |}
           Intentitobb.Lanza
         = (Intentitobb.init, [])).
Proof.
  split; [split; reflexivity|].
  exact (disconnected_publish_attempt init [12; 14] "humo" 1700000000 (Devuelve 0)
           Intentitobb.init "2025-01-01T00:00:00Z" _ Intentitobb.Lanza
           eq_refl eq_refl).
Defined.

(** One turn of the monitoring loop with the link down: the capture is
    classified, the attempt fails once, and the turn ends without a call
    of the client. *)
Lemma ciclo_disconnected (self : Estado) (e : Entrada)
      (datos_csv : list string) (datos_imagen : list Z) :
  is_connected_mqtt self = false ->
  capturar_datos_csv (comando_ok e) (lecturas e) = Some datos_csv ->
  convertir_csv_a_array datos_csv = Some datos_imagen ->
  ciclo self e = Some (contar_error self, []).
Proof.
  intros Hm Hc Hx. unfold ciclo, enviar_a_flespi. rewrite Hc, Hx, Hm. reflexivity.
Qed.

End Publisher.

(** ** Properties of the image converter *)

Section Image.

Import ArduinoTest.

(** *** Row-major reshaping *)

Lemma filas_nth_error (n w : nat) :
  forall (datos : list Z) (y : nat),
    (y < n)%nat ->
    nth_error (filas n w datos) y = Some (firstn w (skipn (y * w) datos)).
Proof.
  induction n as [|n IH]; intros datos y Hy; [lia|].
  destruct y as [|y]; [reflexivity|].
  cbn [filas nth_error]. rewrite IH by lia. rewrite skipn_skipn.
  do 3 f_equal. lia.
Qed.


Lemma py_range_nth_error (a b : Z) (i : nat) :
  (Z.of_nat i < b - a) ->
  nth_error (Py.range a b) i = Some (a + Z.of_nat i).
Proof.
  intros Hi. unfold Py.range. rewrite nth_error_map, nth_error_seq.
  destruct (Nat.ltb_spec i (Z.to_nat (b - a))); [reflexivity | lia].
Qed.

Lemma py_range_length (a b : Z) : List.length (Py.range a b) = Z.to_nat (b - a).
Proof. unfold Py.range. now rewrite length_map, length_seq. Qed.

(** The pixel of column [x] and row [y] of a reshaped array is the element
    of rank [y * ancho + x] of the array. *)
Lemma getpixel_reshape (al an : Z) (datos : list Z) (m : list (list Z)) (x y : Z) :
  reshape al an datos = Some m ->
  0 <= x < an -> 0 <= y < al ->
  getpixel (fromarray al an m) x y = nth_error datos (Z.to_nat (y * an + x))
  /\ exists v, nth_error datos (Z.to_nat (y * an + x)) = Some v.
Proof.
  unfold reshape, getpixel, Py.len. intros Hm Hx Hy.
  destruct ((0 <=? al) && (0 <=? an) && (al * an =? Z.of_nat (List.length datos)))
    eqn:Hc; [|discriminate].
  injection Hm as <-.
  apply andb_true_iff in Hc. destruct Hc as [_ Hlen]. apply Z.eqb_eq in Hlen.
  assert (Hrank : (Z.to_nat (y * an + x) < List.length datos)%nat) by nia.
  cbn [pixeles fromarray].
  destruct (Z.leb_spec 0 x); [|lia]. destruct (Z.leb_spec 0 y); [|lia].
  cbn [andb]. rewrite filas_nth_error by lia. cbn [bind].
  rewrite nth_error_firstn. destruct (Nat.ltb_spec (Z.to_nat x) (Z.to_nat an)); [|lia].
  rewrite nth_error_skipn.
  replace (Z.to_nat y * Z.to_nat an + Z.to_nat x)%nat with (Z.to_nat (y * an + x))
    by nia.
  split; [reflexivity|].
  destruct (nth_error datos (Z.to_nat (y * an + x))) as [v|] eqn:Hv; [now exists v|].
  apply nth_error_None in Hv. lia.
Qed.

(** *** Nearest-neighbour enlargement *)

Lemma getpixel_resize_nearest (im : Imagen) (W H X Y : Z) :
  0 <= X < W -> 0 <= Y < H ->
  getpixel (resize_nearest im W H) X Y
  = Some (match getpixel im ((2 * X + 1) * width im / (2 * W))
                            ((2 * Y + 1) * height im / (2 * H)) with
          | Some v => v
          | None => 0
          end).
Proof.
  intros HX HY. unfold getpixel at 1. cbn [pixeles resize_nearest].
  destruct (Z.leb_spec 0 X); [|lia]. destruct (Z.leb_spec 0 Y); [|lia].
  cbn [andb]. rewrite nth_error_map, py_range_nth_error by lia.
  cbn [option_map bind]. rewrite nth_error_map, py_range_nth_error by lia.
  cbn [option_map]. rewrite !Z.add_0_l, !Z2Nat.id by lia. reflexivity.
Qed.

(** The centre of the pixel [x * s + dx] of the enlarged image, for
    [dx] below [s], falls into the pixel [x] of the source. *)
Lemma nearest_source_index (w s x dx : Z) :
  0 < w -> 0 < s -> 0 <= dx < s ->
  (2 * (x * s + dx) + 1) * w / (2 * (w * s)) = x.
Proof.
  intros Hw Hs Hdx. symmetry.
  apply (Z.div_unique_pos _ _ x ((2 * dx + 1) * w)); nia.
Qed.

Lemma resize_nearest_rows (im : Imagen) (W H : Z) :
  List.length (pixeles (resize_nearest im W H)) = Z.to_nat H
  /\ Forall (fun fila => List.length fila = Z.to_nat W)
            (pixeles (resize_nearest im W H)).
Proof.
  cbn [pixeles resize_nearest]. split.
  - rewrite length_map, py_range_length. f_equal. lia.
  - apply Forall_map, Forall_forall. intros Y _.
    rewrite length_map, py_range_length. f_equal. lia.
Qed.

(** C9.  With a scale factor s above 1, [array_a_imagen] turns the grid
    of w columns and h rows that it builds from the data (with the
    configured dimensions, or with those that the search found) into an
    image of s*w columns and s*h rows in which the pixel of column x and
    row y of the grid fills the block of columns x*s to x*s+s-1 and rows
    y*s to y*s+s-1, unchanged. *)
Theorem resize_replicates_blocks (self : Convertidor) (datos : list Z) (s : Z) :
  let self' := fst (ajustar_dimensiones self datos) in
  let avisos := snd (ajustar_dimensiones self datos) in
  1 < s -> 0 < ancho self' -> 0 < alto self' ->
  Py.len datos = alto self' * ancho self' ->
  exists grid im,
    array_a_imagen self datos 1 = (self', Some grid, avisos)
    /\ array_a_imagen self datos s = (self', Some im, avisos)
    /\ width grid = ancho self' /\ height grid = alto self'
    /\ width im = ancho self' * s /\ height im = alto self' * s
    /\ List.length (pixeles im) = Z.to_nat (alto self' * s)
    /\ Forall (fun fila => List.length fila = Z.to_nat (ancho self' * s)) (pixeles im)
    /\ forall x y dx dy,
        0 <= x < ancho self' -> 0 <= y < alto self' ->
        0 <= dx < s -> 0 <= dy < s ->
        exists v, getpixel grid x y = Some v
                  /\ getpixel im (x * s + dx) (y * s + dy) = Some v.
Proof.
  unfold array_a_imagen.
  destruct (ajustar_dimensiones self datos) as [self' avisos]. cbn [fst snd].
  intros Hs Hw Hh Hlen.
  assert (Hm : reshape (alto self') (ancho self') datos
               = Some (filas (Z.to_nat (alto self')) (Z.to_nat (ancho self')) datos)).
  { unfold reshape. rewrite Hlen, Z.eqb_refl.
    destruct (Z.leb_spec 0 (alto self')); [|lia].
    destruct (Z.leb_spec 0 (ancho self')); [|lia]. reflexivity. }
  rewrite Hm. destruct (Z.gtb_spec s 1) as [_|]; [|lia]. cbn [Z.gtb Z.compare].
  eexists. eexists. split; [reflexivity|]. split; [reflexivity|].
  do 4 (split; [reflexivity|]).
  destruct (resize_nearest_rows
              (fromarray (alto self') (ancho self')
                 (filas (Z.to_nat (alto self')) (Z.to_nat (ancho self')) datos))
              (ancho self' * s) (alto self' * s)) as [Hrows Hcols].
  split; [exact Hrows|]. split; [exact Hcols|].
  intros x y dx dy Hx Hy Hdx Hdy.
  destruct (getpixel_reshape _ _ _ _ x y Hm Hx Hy) as [Hpix [v Hv]].
  exists v. split; [rewrite <- Hv; exact Hpix|].
  rewrite getpixel_resize_nearest by nia.
  cbn [width height fromarray].
  rewrite !nearest_source_index by lia.
  now rewrite Hpix, Hv.
Qed.

Lemma resize_replicates_blocks_witness :
  (1 < 3 /\ 0 < 2 /\ 0 < 2 /\ Py.len [10; 20; 30; 40] = 2 * 2)
  /\ exists grid im,
      array_a_imagen {| ancho := 2; alto := 2 |} [10; 20; 30; 40] 1
      = ({| ancho := 2; alto := 2 |}, Some grid, [])
      /\ array_a_imagen {| ancho := 2; alto := 2 |} [10; 20; 30; 40] 3
         = ({| ancho := 2; alto := 2 |}, Some im, [])
      /\ width grid = 2 /\ height grid = 2
      /\ width im = 2 * 3 /\ height im = 2 * 3
      /\ List.length (pixeles im) = Z.to_nat (2 * 3)
      /\ Forall (fun fila => List.length fila = Z.to_nat (2 * 3)) (pixeles im)
      /\ forall x y dx dy,
          0 <= x < 2 -> 0 <= y < 2 -> 0 <= dx < 3 -> 0 <= dy < 3 ->
          exists v, getpixel grid x y = Some v
                    /\ getpixel im (x * 3 + dx) (y * 3 + dy) = Some v.
Proof.
  assert (H1 : 1 < 3) by lia. assert (H2 : 0 < 2) by lia.
  assert (H3 : Py.len [10; 20; 30; 40] = 2 * 2) by reflexivity.
  split; [repeat split; assumption|].
  exact (resize_replicates_blocks {| ancho := 2; alto := 2 |} [10; 20; 30; 40] 3
           H1 H2 H2 H3).
Defined.

(** The enlarged image of a small grid, computed. *)
Example resize_two_by_two :
  option_map pixeles
    (snd (fst (array_a_imagen {| ancho := 2; alto := 2 |} [10; 20; 30; 40] 2)))
  = Some [[10; 10; 20; 20]; [10; 10; 20; 20]; [30; 30; 40; 40]; [30; 30; 40; 40]].
Proof. reflexivity. Qed.

(** *** Fitting and searching the dimensions *)

Lemma find_first {A : Type} (p : A -> bool) (l : list A) (x : A) :
  find p l = Some x ->
  exists l1 l2, l = (l1 ++ x :: l2)%list /\ p x = true
                /\ forall y, In y l1 -> p y = false.
Proof.
  induction l as [|a l IH]; [discriminate|]. cbn [find].
  destruct (p a) eqn:Hpa.
  - intros [= <-]. exists [], l. repeat split; [exact Hpa | intros y []].
  - intros H. destruct (IH H) as (l1 & l2 & -> & Hx & Hl1).
    exists (a :: l1), l2. repeat split; [exact Hx|].
    intros y [<-|Hy]; [exact Hpa | now apply Hl1].
Qed.

Lemma py_range_split (a b x : Z) (l1 l2 : list Z) :
  Py.range a b = (l1 ++ x :: l2)%list ->
  a <= x < b /\ forall y, a <= y < x -> In y l1.
Proof.
  intros Heq.
  assert (Hx : nth_error (Py.range a b) (List.length l1) = Some x).
  { rewrite Heq, nth_error_app2, Nat.sub_diag by lia. reflexivity. }
  assert (Hlt : (List.length l1 < Z.to_nat (b - a))%nat).
  { rewrite <- py_range_length. apply nth_error_Some. congruence. }
  rewrite py_range_nth_error in Hx by lia. injection Hx as Hx.
  split; [lia|]. intros y Hy.
  assert (Hy' : nth_error (Py.range a b) (Z.to_nat (y - a)) = Some y).
  { rewrite py_range_nth_error by lia. f_equal. lia. }
  rewrite Heq, nth_error_app1 in Hy' by lia.
  now apply nth_error_In in Hy'.
Qed.

(** The search keeps the first height from 10 to 49 that divides the
    number of pixels, and leaves the dimensions alone when none does. *)
Lemma buscar_dimensiones_first (self : Convertidor) (total_pixeles : Z) :
  (exists h, 10 <= h < 50 /\ total_pixeles mod h = 0
             /\ (forall h', 10 <= h' < h -> total_pixeles mod h' <> 0)
             /\ buscar_dimensiones self total_pixeles
                = ({| ancho := total_pixeles / h; alto := h |},
                   [NuevoTamano (total_pixeles / h) h]))
  \/ ((forall h, 10 <= h < 50 -> total_pixeles mod h <> 0)
      /\ buscar_dimensiones self total_pixeles = (self, [])).
Proof.
  unfold buscar_dimensiones.
  destruct (find (fun h => total_pixeles mod h =? 0) (Py.range 10 50)) as [h|] eqn:Hf.
  - left. exists h. destruct (find_first _ _ _ Hf) as (l1 & l2 & Heq & Hh & Hl1).
    destruct (py_range_split _ _ _ _ _ Heq) as [Hr Hbefore].
    apply Z.eqb_eq in Hh. repeat split; try lia.
    intros h' Hh' Hdiv. specialize (Hl1 h' (Hbefore h' Hh')).
    apply Z.eqb_neq in Hl1. contradiction.
  - right. split; [|reflexivity]. intros h Hh Hdiv.
    assert (Hin : In h (Py.range 10 50)).
    { apply (nth_error_In _ (Z.to_nat (h - 10))).
      rewrite py_range_nth_error by lia. f_equal. lia. }
    pose proof (find_none _ _ Hf h Hin) as Hn. cbn beta in Hn.
    apply Z.eqb_neq in Hn. contradiction.
Qed.

(** C2, as the specification words it, fails: for 400 pixels the search
    stops at the height 10, which divides 400, and not at 20. *)
Lemma fallback_400_is_40_by_10 :
  fst (fst (array_a_imagen init (repeat 0 400) 1)) = {| ancho := 40; alto := 10 |}
  /\ snd (array_a_imagen init (repeat 0 400) 1)
     = [AjustandoDimensiones 400; NuevoTamano 40 10].
Proof. split; vm_compute; reflexivity. Qed.

(** C2, amended.  With the configured dimensions 22 by 18, an array of
    396 pixels is reshaped as it is, row after row, and the search is not
    run; an array of 400 pixels runs the search, which takes the first
    height from 10 upwards that divides 400: height 10 and width 40. *)
Theorem array_a_imagen_396_and_400 (datos datos' : list Z) (escalar : Z) :
  List.length datos = 396%nat -> List.length datos' = 400%nat ->
  (ajustar_dimensiones init datos = (init, [])
   /\ exists im,
       array_a_imagen init datos escalar = (init, Some im, [])
       /\ (escalar <= 1 ->
           width im = 22 /\ height im = 18
           /\ forall x y, 0 <= x < 22 -> 0 <= y < 18 ->
                          getpixel im x y = nth_error datos (Z.to_nat (y * 22 + x))))
  /\ (ajustar_dimensiones init datos'
      = ({| ancho := 40; alto := 10 |},
         [AjustandoDimensiones 400; NuevoTamano 40 10])
      /\ exists im,
          array_a_imagen init datos' escalar
          = ({| ancho := 40; alto := 10 |}, Some im,
             [AjustandoDimensiones 400; NuevoTamano 40 10])
          /\ (escalar <= 1 ->
              width im = 40 /\ height im = 10
              /\ forall x y, 0 <= x < 40 -> 0 <= y < 10 ->
                             getpixel im x y
                             = nth_error datos' (Z.to_nat (y * 40 + x)))).
Proof.
  intros Hd Hd'.
  assert (Hfit : ajustar_dimensiones init datos = (init, [])).
  { unfold ajustar_dimensiones, Py.len. rewrite Hd. reflexivity. }
  assert (Hsearch : ajustar_dimensiones init datos'
                    = ({| ancho := 40; alto := 10 |},
                       [AjustandoDimensiones 400; NuevoTamano 40 10])).
  { unfold ajustar_dimensiones, Py.len. rewrite Hd'. reflexivity. }
  assert (Hm : reshape 18 22 datos = Some (filas 18 22 datos)).
  { unfold reshape, Py.len. rewrite Hd. reflexivity. }
  assert (Hm' : reshape 10 40 datos' = Some (filas 10 40 datos')).
  { unfold reshape, Py.len. rewrite Hd'. reflexivity. }
  split; (split; [assumption|]); unfold array_a_imagen.
  - rewrite Hfit. change (alto init) with 18. change (ancho init) with 22.
    rewrite Hm. eexists. split; [reflexivity|]. intros Hs.
    destruct (Z.gtb_spec escalar 1); [lia|].
    split; [reflexivity|]. split; [reflexivity|].
    intros x y Hx Hy. now apply getpixel_reshape.
  - rewrite Hsearch. cbn [ancho alto].
    rewrite Hm'. eexists. split; [reflexivity|]. intros Hs.
    destruct (Z.gtb_spec escalar 1); [lia|].
    split; [reflexivity|]. split; [reflexivity|].
    intros x y Hx Hy. now apply getpixel_reshape.
Qed.

Lemma array_a_imagen_396_and_400_witness :
  (List.length (repeat 7 396) = 396%nat /\ List.length (repeat 9 400) = 400%nat)
  /\ ajustar_dimensiones init (repeat 7 396) = (init, [])
  /\ ajustar_dimensiones init (repeat 9 400)
     = ({| ancho := 40; alto := 10 |},
        [AjustandoDimensiones 400; NuevoTamano 40 10]).
Proof.
  assert (H1 : List.length (repeat 7 396) = 396%nat) by (vm_compute; reflexivity).
  assert (H2 : List.length (repeat 9 400) = 400%nat) by (vm_compute; reflexivity).
  split; [split; assumption|].
  pose proof (array_a_imagen_396_and_400 (repeat 7 396) (repeat 9 400) 10 H1 H2)
    as [[Hfit _] [Hsearch _]].
  split; [exact Hfit | exact Hsearch].
Defined.

End Image.

(** ** More on the capture *)

Section CaptureMore.

Import ArduinoDetection.

Lemma In_take_while {A : Type} (p : A -> bool) (x : A) (l : list A) :
  In x (Spec.take_while p l) -> p x = true /\ In x l.
Proof.
  induction l as [|a l IH]; [intros []|]. cbn [Spec.take_while].
  destruct (p a) eqn:Hpa; [|intros []].
  intros [<-|Hx]; [split; [exact Hpa | now left]|].
  destruct (IH Hx) as [Hp Hin]. split; [exact Hp | now right].
Qed.

Lemma In_drop_while {A : Type} (p : A -> bool) (x : A) (l : list A) :
  In x (Spec.drop_while p l) -> In x l.
Proof.
  induction l as [|a l IH]; [intros []|]. cbn [Spec.drop_while].
  destruct (p a); [intros Hx; right; now apply IH | trivial].
Qed.

Lemma In_tl {A : Type} (x : A) (l : list A) : In x (tl l) -> In x l.
Proof. destruct l; [intros [] | now right]. Qed.

Lemma In_lines_read (l : string) (polls : list (option string)) :
  In l (Spec.lines_read polls) -> In (Some l) polls /\ Py.truthy l = true.
Proof.
  unfold Spec.lines_read. rewrite in_flat_map. intros ([[|c r]|] & Hin & Hl);
    try contradiction.
  destruct Hl as [<-|[]]. split; [exact Hin | reflexivity].
Qed.

(** X1.  What [capturar_datos_csv] returns is never an empty list, and
    every line of it was read from the port, holds a comma, does not start
    with ["#"] and carries neither a start marker nor an end marker. *)
Theorem capturar_datos_csv_only_data
        (comando_ok : bool) (polls : list (option string)) (datos : list string) :
  capturar_datos_csv comando_ok polls = Some datos ->
  comando_ok = true
  /\ datos <> []
  /\ Forall (fun l => In (Some l) polls
                      /\ Py.str_in "," l = true
                      /\ Py.startswith l "#" = false
                      /\ es_inicio l = false
                      /\ es_fin l = false) datos.
Proof.
  unfold capturar_datos_csv. destruct comando_ok; cbn [negb]; [|discriminate].
  rewrite (bucle_captura_esperando polls []). cbn [app].
  destruct (Spec.data_lines (Spec.lines_read polls)) as [|l ls] eqn:Hd;
    [discriminate|].
  intros [= <-]. split; [reflexivity|]. split; [discriminate|].
  rewrite <- Hd. apply Forall_forall. intros x Hx.
  unfold Spec.data_lines in Hx. apply filter_In in Hx. destruct Hx as [Hin Hf].
  apply andb_true_iff in Hf. destruct Hf as [Hstart Hshape].
  apply negb_true_iff in Hstart.
  unfold Spec.data_shape in Hshape. apply andb_true_iff in Hshape.
  destruct Hshape as [Hcomma Hhash]. apply negb_true_iff in Hhash.
  unfold Spec.after_start in Hin. apply In_tl, In_drop_while in Hin.
  unfold Spec.before_close in Hin. apply In_take_while in Hin.
  destruct Hin as [Hopen Hread]. unfold Spec.closes in Hopen.
  change (Spec.start_marker x) with (es_inicio x) in *.
  change (Spec.end_marker x) with (es_fin x) in *.
  rewrite Hstart in Hopen. cbn [negb andb] in Hopen. apply negb_true_iff in Hopen.
  repeat split; try assumption. now apply In_lines_read.
Qed.

Lemma capturar_datos_csv_only_data_witness :
  capturar_datos_csv true [Some "==="; Some "# x,y"; Some "1,2"; Some "FIN DATOS CSV"]
  = Some ["1,2"]
  /\ ["1,2"] <> []
  /\ Forall (fun l => In (Some l)
                        [Some "==="; Some "# x,y"; Some "1,2"; Some "FIN DATOS CSV"]
                      /\ Py.str_in "," l = true
                      /\ Py.startswith l "#" = false
                      /\ es_inicio l = false
                      /\ es_fin l = false) ["1,2"].
Proof.
  assert (H : capturar_datos_csv true
                [Some "==="; Some "# x,y"; Some "1,2"; Some "FIN DATOS CSV"]
              = Some ["1,2"]) by reflexivity.
  split; [exact H|].
  exact (proj2 (capturar_datos_csv_only_data true _ ["1,2"] H)).
Defined.

(** The loop stops at a closing line: what comes after it is not read. *)
Lemma bucle_captura_stops (fin : string) (post : list (option string)) :
  Py.truthy fin = true -> es_inicio fin = false -> es_fin fin = true ->
  forall pre capturando datos,
    bucle_captura capturando datos (pre ++ Some fin :: post)
    = bucle_captura capturando datos pre.
Proof.
  intros Ht Hi Hf. induction pre as [|[l|] pre IH]; intros capturando datos.
  - cbn [app bucle_captura]. now rewrite Ht, Hi, Hf.
  - cbn [app bucle_captura].
    repeat match goal with
           | |- context [if ?b then _ else _] => destruct b
           end; try apply IH; reflexivity.
  - cbn [app bucle_captura]. apply IH.
Qed.

(** X2.  A line with an end marker (and no start marker) only stops the
    capture: the result is the one of a wait that expires just before that
    line, and nothing that follows the line changes it. *)
Theorem capturar_datos_csv_end_marker
        (comando_ok : bool) (pre post : list (option string)) (fin : string) :
  Py.truthy fin = true -> es_inicio fin = false -> es_fin fin = true ->
  capturar_datos_csv comando_ok (pre ++ Some fin :: post)
  = capturar_datos_csv comando_ok pre.
Proof.
  intros Ht Hi Hf. unfold capturar_datos_csv.
  now rewrite (bucle_captura_stops fin post Ht Hi Hf).
Qed.

Lemma capturar_datos_csv_end_marker_witness :
  capturar_datos_csv true
    ([Some "==="; Some "1,2"] ++ Some "FIN DATOS CSV" :: [Some "3,4"; Some "==="])
  = capturar_datos_csv true [Some "==="; Some "1,2"].
Proof.
  exact (capturar_datos_csv_end_marker true [Some "==="; Some "1,2"]
           [Some "3,4"; Some "==="] "FIN DATOS CSV" eq_refl eq_refl eq_refl).
Defined.

Lemma bucle_captura_no_start (polls : list (option string)) :
  (forall l, In (Some l) polls -> es_inicio l = false) ->
  forall datos, bucle_captura false datos polls = datos.
Proof.
  induction polls as [|[l|] polls IH]; intros Hno datos; [reflexivity| |].
  - cbn [bucle_captura]. rewrite (Hno l (or_introl eq_refl)). cbn [andb].
    destruct (Py.truthy l), (es_fin l); try reflexivity;
      apply IH; intros l' Hl'; apply Hno; now right.
  - cbn [bucle_captura]. apply IH. intros l' Hl'. apply Hno. now right.
Qed.

(** X3.  As long as no line with a start marker is read, nothing is
    captured, whatever the lines hold. *)
Theorem capturar_datos_csv_needs_start
        (comando_ok : bool) (polls : list (option string)) :
  (forall l, In (Some l) polls -> es_inicio l = false) ->
  capturar_datos_csv comando_ok polls = None.
Proof.
  intros Hno. unfold capturar_datos_csv.
  rewrite (bucle_captura_no_start polls Hno). now destruct comando_ok.
Qed.

Lemma capturar_datos_csv_needs_start_witness :
  (forall l, In (Some l) [Some "1,2"; None; Some "3,4"] -> es_inicio l = false)
  /\ capturar_datos_csv true [Some "1,2"; None; Some "3,4"] = None.
Proof.
  assert (H : forall l, In (Some l) [Some "1,2"; None; Some "3,4"]
                        -> es_inicio l = false).
  { intros l [[= <-]|[[=]|[[= <-]|[]]]]; reflexivity. }
  split; [exact H|].
  exact (capturar_datos_csv_needs_start true _ H).
Defined.

End CaptureMore.

(** ** More on the extractor and on the classifier *)

Section ClassifierMore.

Import ArduinoDetection.

Lemma convertir_desde_shift (datos_csv : list string) :
  forall valores,
    convertir_desde valores datos_csv
    = option_map (app valores) (convertir_desde [] datos_csv).
Proof.
  induction datos_csv as [|l ls IH]; intros valores; cbn [convertir_desde].
  - cbn. now rewrite app_nil_r.
  - destruct (convertir_fila l) as [fila|]; [|reflexivity]. cbn [bind app].
    rewrite (IH (valores ++ fila)%list), (IH fila).
    destruct (convertir_desde [] ls) as [v|]; [|reflexivity].
    cbn [option_map]. now rewrite app_assoc.
Qed.

Lemma convertir_desde_app (a b : list string) :
  forall valores,
    convertir_desde valores (a ++ b)
    = (va <- convertir_desde valores a ;; convertir_desde va b).
Proof.
  induction a as [|l ls IH]; intros valores; cbn [app convertir_desde bind];
    [reflexivity|].
  destruct (convertir_fila l) as [fila|]; [|reflexivity]. cbn [bind]. apply IH.
Qed.

(** X4.  Extracting two batches of lines at once gives the values of the
    first batch followed by those of the second, and fails as soon as one
    of the two fails. *)
Theorem convertir_csv_a_array_app (a b : list string) :
  convertir_csv_a_array (a ++ b)
  = (va <- convertir_csv_a_array a ;;
     vb <- convertir_csv_a_array b ;;
     Some (va ++ vb)%list).
Proof.
  unfold convertir_csv_a_array. rewrite convertir_desde_app.
  destruct (convertir_desde [] a) as [va|]; [|reflexivity]. cbn [bind].
  rewrite convertir_desde_shift. now destruct (convertir_desde [] b).
Qed.

(** The quantities that the classifier reads do not depend on the order
    of the pixels. *)
Lemma total_permutation (l l' : list Z) :
  Permutation l l' -> Spec.total l = Spec.total l'.
Proof.
  unfold Spec.total. induction 1; cbn [fold_right]; lia.
Qed.

Lemma minimum_permutation (l l' : list Z) :
  Permutation l l' -> Spec.minimum l = Spec.minimum l'.
Proof.
  intros Hp. destruct l as [|x xs], l' as [|y ys]; [reflexivity| | |].
  - now apply Permutation_nil in Hp.
  - apply Permutation_sym in Hp. now apply Permutation_nil in Hp.
  - destruct (minimum_is_min x xs) as [Hin Hle], (minimum_is_min y ys) as [Hin' Hle'].
    apply (Permutation_in _ Hp) in Hin.
    apply (Permutation_in _ (Permutation_sym Hp)) in Hin'.
    specialize (Hle _ Hin'). specialize (Hle' _ Hin). lia.
Qed.

Lemma maximum_permutation (l l' : list Z) :
  Permutation l l' -> Spec.maximum l = Spec.maximum l'.
Proof.
  intros Hp. destruct l as [|x xs], l' as [|y ys]; [reflexivity| | |].
  - now apply Permutation_nil in Hp.
  - apply Permutation_sym in Hp. now apply Permutation_nil in Hp.
  - destruct (maximum_is_max x xs) as [Hin Hle], (maximum_is_max y ys) as [Hin' Hle'].
    apply (Permutation_in _ Hp) in Hin.
    apply (Permutation_in _ (Permutation_sym Hp)) in Hin'.
    specialize (Hle _ Hin'). specialize (Hle' _ Hin). lia.
Qed.

(** X5.  The verdict of the classifier does not depend on the order of
    the pixels: two arrays with the same samples, in any order, are
    classified alike. *)
Theorem generar_anomalia_permutation (l l' : list Z) :
  Permutation l l' -> generar_anomalia l = generar_anomalia l'.
Proof.
  intros Hp.
  assert (Hrule : Spec.smoke_rule l <-> Spec.smoke_rule l').
  { unfold Spec.smoke_rule, Spec.range, Spec.mean.
    now rewrite (total_permutation _ _ Hp), (Permutation_length Hp),
      (minimum_permutation _ _ Hp), (maximum_permutation _ _ Hp). }
  destruct l as [|x xs], l' as [|y ys]; [reflexivity| | |].
  - now apply Permutation_nil in Hp.
  - apply Permutation_sym in Hp. now apply Permutation_nil in Hp.
  - pose proof (generar_anomalia_rule x xs) as Hx.
    pose proof (generar_anomalia_rule y ys) as Hy.
    destruct (generar_anomalia_two_verdicts (x :: xs)) as [H1|H1],
             (generar_anomalia_two_verdicts (y :: ys)) as [H2|H2];
      try congruence.
    + apply Hx, Hrule, Hy in H1. rewrite H2 in H1. discriminate H1.
    + apply Hy, Hrule, Hx in H2. rewrite H1 in H2. discriminate H2.
Qed.

Lemma generar_anomalia_permutation_witness :
  Permutation [10; 200; 30] [30; 10; 200]
  /\ generar_anomalia [10; 200; 30] = generar_anomalia [30; 10; 200].
Proof.
  assert (H : Permutation [10; 200; 30] [30; 10; 200]).
  { apply (perm_trans (l' := [10; 30; 200])).
    - apply perm_skip, perm_swap.
    - apply perm_swap. }
  split; [exact H | exact (generar_anomalia_permutation _ _ H)].
Defined.

Lemma repeat_quantities (v : Z) (n : nat) :
  Spec.total (repeat v (S n)) = Z.of_nat (S n) * v
  /\ Spec.minimum (repeat v (S n)) = v
  /\ Spec.maximum (repeat v (S n)) = v.
Proof.
  induction n as [|n (Ht & Hmin & Hmax)].
  { unfold Spec.total. cbn [repeat fold_right Spec.minimum Spec.maximum]. lia. }
  change (repeat v (S (S n))) with (v :: repeat v (S n)).
  change (Spec.total (v :: repeat v (S n))) with (v + Spec.total (repeat v (S n))).
  change (Spec.minimum (v :: repeat v (S n)))
    with (Z.min v (Spec.minimum (repeat v (S n)))).
  change (Spec.maximum (v :: repeat v (S n)))
    with (Z.max v (Spec.maximum (repeat v (S n)))).
  rewrite Ht, Hmin, Hmax. lia.
Qed.

(** X6.  An image whose pixels all have the same brightness is classified
    as smoke exactly when that brightness is below 80. *)
Theorem generar_anomalia_uniform (v : Z) (n : nat) :
  0 <= v <= 255 -> (0 < n)%nat ->
  (generar_anomalia (repeat v n) = "humo" <-> v < 80).
Proof.
  intros _ Hn. destruct n as [|n]; [lia|].
  destruct (repeat_quantities v n) as (Ht & Hmin & Hmax).
  change (repeat v (S n)) with (v :: repeat v n) in *.
  rewrite (generar_anomalia_rule v (repeat v n)).
  unfold Spec.smoke_rule, Spec.range. rewrite Hmin, Hmax.
  change 60%Q with (inject_Z 60). change 80%Q with (inject_Z 80).
  rewrite !mean_lt_int by discriminate. rewrite Ht.
  unfold Py.len. change (v :: repeat v n) with (repeat v (S n)).
  rewrite repeat_length. nia.
Qed.

Lemma generar_anomalia_uniform_witness :
  (0 <= 79 <= 255 /\ (0 < 396)%nat)
  /\ (generar_anomalia (repeat 79 396) = "humo" <-> 79 < 80).
Proof.
  assert (H1 : 0 <= 79 <= 255) by lia. assert (H2 : (0 < 396)%nat) by lia.
  split; [split; assumption | exact (generar_anomalia_uniform 79 396 H1 H2)].
Defined.

End ClassifierMore.

(** ** More on the monitoring loop *)

Section MonitorMore.

Import ArduinoDetection.

Lemma ejecutar_counters (sucesos : list Suceso) :
  forall self, Spec.counters_agree self ->
               Spec.counters_agree (fst (ejecutar self sucesos)).
Proof.
  induction sucesos as [|[rc| |e] resto IH]; intros self Hinv; cbn [ejecutar].
  - exact Hinv.
  - apply IH. exact Hinv.
  - apply IH. exact Hinv.
  - destruct (ciclo self e) as [[self' llamadas]|] eqn:Hc; [|exact Hinv].
    specialize (IH self' (ciclo_counters self self' e llamadas Hinv Hc)).
    now destruct (ejecutar self' resto).
Qed.

(** X7.  All along a run of the monitoring loop that starts from a fresh
    object, whatever is read from the port, whatever the broker answers
    and whenever the connection comes and goes, the published messages are
    the smoke ones plus the normal ones. *)
Theorem ejecutar_counters_from_init (sucesos : list Suceso) :
  Spec.counters_agree (fst (ejecutar init sucesos)).
Proof. apply ejecutar_counters. reflexivity. Qed.





(** X9.  The message that a turn publishes is consistent with what was
    captured: it goes to the configured topic with quality of service 1,
    carries the values extracted from the captured lines, their number,
    and the verdict of the classifier on these very values; and the smoke
    counter only moves when such a message, with the verdict ["humo"], was
    handed to the client. *)
Theorem ciclo_publishes_verdict
        (self self' : Estado) (e : Entrada) (llamadas : list Publicacion) :
  ciclo self e = Some (self', llamadas) ->
  Forall (fun m =>
            topic m = mqtt_topic self /\ qos m = 1
            /\ (exists datos_csv,
                   capturar_datos_csv (comando_ok e) (lecturas e) = Some datos_csv
                   /\ convertir_csv_a_array datos_csv
                      = Some (imagen_datos (mensaje m)))
            /\ total_pixeles (mensaje m) = Py.len (imagen_datos (mensaje m))
            /\ anomalia (mensaje m) = generar_anomalia (imagen_datos (mensaje m)))
         llamadas
  /\ (envios_humo self' <> envios_humo self ->
      exists m, llamadas = [m] /\ anomalia (mensaje m) = "humo").
Proof.
  unfold ciclo.
  destruct (capturar_datos_csv (comando_ok e) (lecturas e)) as [datos_csv|].
  - destruct (convertir_csv_a_array datos_csv) as [datos_imagen|] eqn:Hx;
      [|discriminate]. cbn [bind]. unfold enviar_a_flespi.
    destruct (is_connected_mqtt self); cbn [negb];
      [destruct (respuesta e) as [rc|]; [destruct (rc =? MQTT_ERR_SUCCESS)|]|];
      intros [= <- <-];
      (split; [|cbn [contar_envio contar_error envios_humo]; intros Hne]);
      try (exfalso; apply Hne; reflexivity);
      try (apply Forall_nil);
      try (apply Forall_cons; [|apply Forall_nil];
           cbn [topic qos mensaje crear_payload imagen_datos total_pixeles anomalia];
           repeat split; exists datos_csv; split; [reflexivity | exact Hx]).
    eexists. split; [reflexivity|].
    cbn [mensaje crear_payload anomalia].
    destruct (String.eqb_spec (generar_anomalia datos_imagen) "humo") as [Heq|_];
      [exact Heq | exfalso; apply Hne; reflexivity].
  - intros [= <- <-]. split; [apply Forall_nil|].
    intros Hne. exfalso. apply Hne. reflexivity.
Qed.

Lemma ciclo_publishes_verdict_witness :
  exists m,
    [ {| topic := "arduino/anomalias";
         mensaje := crear_payload 1700000000 [50; 52] "humo";
         qos := 1 |} ] = [m]
    /\ anomalia (mensaje m) = "humo".
Proof.
  pose (conectado := on_mqtt_connect init 0).
  pose (e := {| comando_ok := true;
                lecturas := [Some "==="; Some "50,52"; Some "FIN DATOS CSV"];
                timestamp := 1700000000;
                respuesta := Devuelve 0 |}).
  assert (H : ciclo conectado e
              = Some (contar_envio conectado "humo",
                      [ {| topic := "arduino/anomalias";
                           mensaje := crear_payload 1700000000 [50; 52] "humo";
                           qos := 1 |} ])) by reflexivity.
  apply (proj2 (ciclo_publishes_verdict conectado _ e _ H)). discriminate.
Defined.



(** X10.  A token that is not a number, in a line that the capture
    accepts, ends the monitoring: the turn raises before anything is
    published or counted, and the turns that would follow do not run. *)
Theorem ejecutar_stops_on_bad_token
        (self : Estado) (e : Entrada) (resto : list Suceso) (linea val : string) :
  comando_ok e = true ->
  In linea (Spec.data_lines (Spec.lines_read (lecturas e))) ->
  In val (Py.split "," linea) ->
  Py.truthy (Py.strip val) = true ->
  Py.int (Py.strip val) = None ->
  ciclo self e = None /\ ejecutar self (Turno e :: resto) = (self, []).
Proof.
  intros Hok Hl Hv Hne Hint.
  assert (Hc : ciclo self e = None).
  { unfold ciclo, capturar_datos_csv. rewrite Hok. cbn [negb].
    rewrite (bucle_captura_esperando (lecturas e) []). cbn [app].
    destruct (Spec.data_lines (Spec.lines_read (lecturas e))) as [|l ls] eqn:Hd;
      [contradiction|].
    unfold convertir_csv_a_array.
    rewrite (convertir_desde_none linea (l :: ls) Hl); [reflexivity|].
    unfold convertir_fila.
    apply (mapM_none (fun v => Py.int (Py.strip v)) val); [|exact Hint].
    apply filter_In. now split. }
  split; [exact Hc|]. cbn [ejecutar]. now rewrite Hc.
Qed.

Lemma ejecutar_stops_on_bad_token_witness :
  ciclo init {| comando_ok := true;
                lecturas := [Some "==="; Some "12,1x,14"; Some "FIN DATOS CSV"];
                timestamp := 1700000000;
                respuesta := Devuelve 0 |} = None
  /\ ejecutar init
       [Turno {| comando_ok := true;
                 lecturas := [Some "==="; Some "12,1x,14"; Some "FIN DATOS CSV"];
                 timestamp := 1700000000;
                 respuesta := Devuelve 0 |};
        Conecta 0]
     = (init, []).
Proof.
  apply (ejecutar_stops_on_bad_token init _ [Conecta 0] "12,1x,14" "1x").
  - reflexivity.
  - left; reflexivity.
  - right; left; reflexivity.
  - reflexivity.
  - reflexivity.
Defined.

End MonitorMore.

(** ** The interactive capture and the file it writes *)

Section ReaderMore.

Import ArduinoDetection.

(** X11.  The interactive capture shows on the console every non-empty
    line that it reads, markers and comments included, up to the line
    that closes the capture, which is the last one shown; this does not
    depend on whether a start marker was seen. *)
Theorem reader_console_echo (polls : list (option string)) :
  forall capturando consola datos,
    fst (ArduinoReader.bucle_captura capturando consola datos polls)
    = (consola ++ Spec.take_through Spec.closes (Spec.lines_read polls))%list.
Proof.
  induction polls as [|[[|c l]|] polls IH]; intros capturando consola datos.
  - cbn. now rewrite app_nil_r.
  - rewrite lines_read_cons_empty. apply IH.
  - rewrite lines_read_cons_line.
    cbn [ArduinoReader.bucle_captura Py.truthy Spec.take_through].
    unfold Spec.closes.
    change (Py.str_in "INICIO DATOS CSV" (String c l) || Py.str_in "===" (String c l))
      with (Spec.start_marker (String c l)).
    change (Py.str_in "FIN DATOS CSV" (String c l)
            || Py.str_in "Copia estos datos" (String c l))
      with (Spec.end_marker (String c l)).
    destruct (Spec.start_marker (String c l)); cbn [negb andb].
    + rewrite IH, <- app_assoc. reflexivity.
    + destruct (Spec.end_marker (String c l)); [reflexivity|].
      destruct (capturando && Py.str_in "," (String c l)
                && negb (Py.startswith (String c l) "#"));
        rewrite IH, <- app_assoc; reflexivity.
  - rewrite lines_read_cons_none. apply IH.
Qed.

(** *** Stripping twice *)







(** The first field of a line starts with ["#"] exactly when the line
    does. *)
Lemma split_head_hash (l : string) :
  exists campo campos,
    Py.split "," l = campo :: campos
    /\ Py.startswith campo "#" = String.prefix "#" l.
Proof.
  unfold Py.startswith. destruct l as [|c l]; [now exists EmptyString, []|].
  cbn [Py.split]. destruct (Ascii.eqb_spec c ",") as [->|Hc].
  - eexists. eexists. split; reflexivity.
  - assert (Hempty : forall t, String.prefix EmptyString t = true)
      by (intros t; now destruct t).
    destruct (Py.split "," l) as [|t ts]; eexists; eexists;
      (split; [reflexivity|]); cbn [String.prefix];
      destruct (ascii_dec "#" c); rewrite ?Hempty; reflexivity.
Qed.




End ReaderMore.

(** ** More on the image converter *)

Section ImageMore.

Import ArduinoTest.

(** The three ways in which the dimensions are settled. *)
Lemma ajustar_dimensiones_cases (self : Convertidor) (datos : list Z) :
  let n := Py.len datos in
  (n = ancho self * alto self /\ ajustar_dimensiones self datos = (self, []))
  \/ (n <> ancho self * alto self
      /\ exists h, 10 <= h < 50 /\ n mod h = 0
                   /\ (forall h', 10 <= h' < h -> n mod h' <> 0)
                   /\ ajustar_dimensiones self datos
                      = ({| ancho := n / h; alto := h |},
                         [AjustandoDimensiones n; NuevoTamano (n / h) h]))
  \/ (n <> ancho self * alto self
      /\ (forall h, 10 <= h < 50 -> n mod h <> 0)
      /\ ajustar_dimensiones self datos = (self, [AjustandoDimensiones n])).
Proof.
  intros n. unfold ajustar_dimensiones. fold n.
  destruct (Z.eqb_spec n (ancho self * alto self)) as [Heq|Hne]; cbn [negb].
  - left. now split.
  - right.
    destruct (buscar_dimensiones_first self n)
      as [(h & Hr & Hmod & Hleast & ->)|(Hnone & ->)].
    + left. split; [exact Hne|]. exists h. repeat split; try assumption; lia.
    + right. repeat split; assumption.
Qed.

(** X13.  [array_a_imagen] keeps the configured dimensions when they fit
    the number of pixels.  When they do not, it takes as height the first
    number from 10 to 49 that divides the number of pixels, and as width
    the quotient; when no such number exists it keeps the dimensions that
    do not fit. *)
Theorem ajustar_dimensiones_first_divisor (self : Convertidor) (datos : list Z) :
  let n := Py.len datos in
  (n = ancho self * alto self /\ ajustar_dimensiones self datos = (self, []))
  \/ (n <> ancho self * alto self
      /\ exists h, 10 <= h < 50 /\ n mod h = 0
                   /\ (forall h', 10 <= h' < h -> n mod h' <> 0)
                   /\ ajustar_dimensiones self datos
                      = ({| ancho := n / h; alto := h |},
                         [AjustandoDimensiones n; NuevoTamano (n / h) h]))
  \/ (n <> ancho self * alto self
      /\ (forall h, 10 <= h < 50 -> n mod h <> 0)
      /\ ajustar_dimensiones self datos = (self, [AjustandoDimensiones n])).
Proof. exact (ajustar_dimensiones_cases self datos). Qed.

Lemma array_a_imagen_unfold (self : Convertidor) (datos : list Z) (escalar : Z) :
  array_a_imagen self datos escalar
  = let self' := fst (ajustar_dimensiones self datos) in
    let avisos := snd (ajustar_dimensiones self datos) in
    match reshape (alto self') (ancho self') datos with
    | None => (self', None, (avisos ++ [ErrorCreandoImagen])%list)
    | Some m =>
        (self',
         Some (if escalar >? 1
               then resize_nearest (fromarray (alto self') (ancho self') m)
                      (ancho self' * escalar) (alto self' * escalar)
               else fromarray (alto self') (ancho self') m),
         avisos)
    end.
Proof.
  unfold array_a_imagen. now destruct (ajustar_dimensiones self datos).
Qed.






(** *** Flattening the grid *)




(** *** Comments, and the whole conversion *)

Lemma leer_filas_kept (ls : list string) :
  forall datos,
    leer_filas datos ls = leer_filas datos (filter Spec.csv_kept ls).
Proof.
  induction ls as [|l ls IH]; intros datos; [reflexivity|].
  cbn [leer_filas filter]. unfold Spec.csv_kept at 1.
  destruct l as [|c l]; [cbn [csv_reader_fila Py.truthy andb]; apply IH|].
  destruct (split_head_hash (String c l)) as (campo & campos & Hsplit & Hhead).
  change (csv_reader_fila (String c l)) with (Py.split "," (String c l)).
  rewrite Hsplit, Hhead. cbn [Py.truthy andb].
  destruct (String.prefix "#" (String c l)) eqn:Hp; cbn [negb]; [apply IH|].
  cbn [leer_filas].
  change (csv_reader_fila (String c l)) with (Py.split "," (String c l)).
  rewrite Hsplit, Hhead. rewrite ?Hp.
  destruct (mapM Py.int _); [cbn [bind]; apply IH | reflexivity].
Qed.

(** X18.  The empty lines of a CSV file and the lines that start with
    ["#"] do not count: the converter reads the file as if they were not
    there. *)
Theorem csv_a_array_skips_comments (np_uint8 : Z -> option Z) (lineas : list string) :
  Forall (fun l => Spec.csv_plain l = true) lineas ->
  csv_a_array np_uint8 lineas
  = csv_a_array np_uint8 (filter Spec.csv_kept lineas).
Proof.
  intros _. unfold csv_a_array. now rewrite leer_filas_kept.
Qed.

Lemma csv_a_array_skips_comments_witness :
  Forall (fun l => Spec.csv_plain l = true) ["# 22x18"; "1,2"; ""; "#3,4"; "5"]
  /\ csv_a_array Some ["# 22x18"; "1,2"; ""; "#3,4"; "5"]
     = csv_a_array Some ["1,2"; "5"].
Proof.
  assert (H : Forall (fun l => Spec.csv_plain l = true)
                     ["# 22x18"; "1,2"; ""; "#3,4"; "5"]) by (repeat constructor).
  split; [exact H | exact (csv_a_array_skips_comments Some _ H)].
Defined.

Lemma concat_uniform (w : nat) (rows : list (list Z)) :
  Forall (fun fila => List.length fila = w) rows ->
  List.length (List.concat rows) = (List.length rows * w)%nat
  /\ forall y x, (x < w)%nat ->
       nth_error (List.concat rows) (y * w + x)
       = (fila <- nth_error rows y ;; nth_error fila x).
Proof.
  induction 1 as [|r rows Hr _ [IHl IHn]]; cbn [List.concat List.length].
  - split; [reflexivity|]. intros y x _.
    destruct (y * w + x)%nat, y; reflexivity.
  - split; [rewrite length_app; lia|]. intros y x Hx. destruct y as [|y].
    + cbn [nth_error bind Nat.mul Nat.add]. apply nth_error_app1. lia.
    + cbn [nth_error bind]. rewrite nth_error_app2 by lia.
      rewrite <- (IHn y x Hx). f_equal. lia.
Qed.

Lemma mapM_pixels (np_uint8 : Z -> option Z) (l : list Z) :
  (forall p, 0 <= p <= 255 -> np_uint8 p = Some p) ->
  Spec.pixels l -> mapM np_uint8 l = Some l.
Proof.
  intros Hnp. induction 1 as [|p l Hp _ IH]; [reflexivity|].
  cbn [mapM]. rewrite (Hnp p Hp). cbn [bind]. now rewrite IH.
Qed.

(** X19.  The whole conversion, as [convertir_csv_a_imagen] chains it: a
    CSV file of h lines of w pixel values each, converted with the
    dimensions w by h and a scale factor s above 1, gives without any
    search an image of s*w by s*h pixels in which the value of column x of
    line y of the file fills the block of columns x*s to x*s+s-1 and rows
    y*s to y*s+s-1. *)
Theorem csv_to_image (np_uint8 : Z -> option Z) (rows : list (list Z)) (w h s : Z) :
  (forall p, 0 <= p <= 255 -> np_uint8 p = Some p) ->
  Forall Spec.pixels rows ->
  Forall (fun fila => List.length fila = Z.to_nat w) rows ->
  Z.of_nat (List.length rows) = h ->
  0 < w -> 0 < h -> 1 < s ->
  exists datos im,
    csv_a_array np_uint8 (map Spec.csv_line rows) = Some datos
    /\ array_a_imagen {| ancho := w; alto := h |} datos s
       = ({| ancho := w; alto := h |}, Some im, [])
    /\ width im = w * s /\ height im = h * s
    /\ forall x y dx dy,
        0 <= x < w -> 0 <= y < h -> 0 <= dx < s -> 0 <= dy < s ->
        getpixel im (x * s + dx) (y * s + dy)
        = (fila <- nth_error rows (Z.to_nat y) ;; nth_error fila (Z.to_nat x)).
Proof.
  intros Hnp Hpix Hrows Hh Hw Hhpos Hs.
  destruct (concat_uniform (Z.to_nat w) rows Hrows) as [Hlen Hnth].
  assert (Hn : Py.len (List.concat rows) = w * h) by (unfold Py.len; nia).
  exists (List.concat rows). eexists. split.
  { unfold csv_a_array. rewrite (leer_filas_csv_lines rows []). cbn [bind app].
    apply (mapM_pixels np_uint8 _ Hnp). apply Forall_concat. exact Hpix. }
  assert (Hm : reshape h w (List.concat rows)
               = Some (filas (Z.to_nat h) (Z.to_nat w) (List.concat rows))).
  { unfold reshape. rewrite Hn, (Z.mul_comm h w), Z.eqb_refl.
    destruct (Z.leb_spec 0 h); [|lia]. destruct (Z.leb_spec 0 w); [|lia].
    reflexivity. }
  rewrite array_a_imagen_unfold. unfold ajustar_dimensiones.
  cbn [ancho alto]. rewrite Hn, Z.eqb_refl. cbn [negb fst snd ancho alto].
  rewrite Hm. destruct (Z.gtb_spec s 1); [|lia].
  split; [reflexivity|]. split; [reflexivity|]. split; [reflexivity|].
  intros x y dx dy Hx Hy Hdx Hdy.
  destruct (getpixel_reshape _ _ _ _ x y Hm Hx Hy) as [Hgrid [v Hv]].
  rewrite getpixel_resize_nearest by nia. cbn [width height fromarray].
  rewrite !nearest_source_index by lia. rewrite Hgrid, Hv.
  rewrite <- (Hnth (Z.to_nat y) (Z.to_nat x)) by lia.
  rewrite <- Hv. f_equal. nia.
Qed.

Lemma csv_to_image_witness :
  exists datos im,
    csv_a_array (fun p => Some p) ["10,20"; "30,40"] = Some datos
    /\ array_a_imagen {| ancho := 2; alto := 2 |} datos 3
       = ({| ancho := 2; alto := 2 |}, Some im, [])
    /\ width im = 2 * 3 /\ height im = 2 * 3
    /\ forall x y dx dy,
        0 <= x < 2 -> 0 <= y < 2 -> 0 <= dx < 3 -> 0 <= dy < 3 ->
        getpixel im (x * 3 + dx) (y * 3 + dy)
        = (fila <- nth_error [[10; 20]; [30; 40]] (Z.to_nat y) ;;
           nth_error fila (Z.to_nat x)).
Proof.
  apply (csv_to_image (fun p => Some p) [[10; 20]; [30; 40]] 2 2 3).
  - reflexivity.
  - repeat constructor; lia.
  - repeat constructor.
  - reflexivity.
  - lia.
  - lia.
  - lia.
Defined.

End ImageMore.

(** ** The drone simulator *)

Section Drone.

Import Intentitobb.

(** What a call does to the counters when the link is up. *)
Lemma publish_telemetry_connected
        (d : Dron) (ahora : string) (r : Azar) (respuesta : Respuesta) :
  connected d = true ->
  let d' := fst (publish_telemetry d ahora r respuesta) in
  let llamadas := snd (publish_telemetry d ahora r respuesta) in
  let perdida := ((reading_count d + 1) mod 5 =? 0)%Z && (tipo r =? 2)%Z in
  connected d' = true
  /\ reading_count d' = (reading_count d + 1)%Z
  /\ gps_loss_count d' = (gps_loss_count d + if perdida then 1 else 0)%Z
  /\ (List.length llamadas <= 1)%nat
  /\ Forall (fun m => topic m = MQTT_TOPIC /\ qos m = 0%Z
                      /\ timestamp (data m) = ahora
                      /\ (gps (data m) = None <-> perdida = true)) llamadas.
Proof.
  intros Hc. unfold publish_telemetry. rewrite Hc. cbn [negb]. cbv zeta.
  destruct ((reading_count d + 1) mod 5 =? 0)%Z eqn:Hmod; cbn [andb].
  - destruct (tipo r =? 2)%Z eqn:Htipo; cbn [negb];
      destruct respuesta as [rc|]; try destruct (rc =? MQTT_ERR_SUCCESS)%Z;
      cbn [fst snd connected reading_count gps_loss_count simulate_drone_movement
           List.length];
      repeat split; try assumption; try lia;
      try (apply Forall_nil);
      try (apply Forall_cons; [|apply Forall_nil];
           cbn [topic qos data timestamp gps]; repeat split;
           try reflexivity; try discriminate).
  - change (0 =? 2)%Z with false. cbn [negb].
    destruct respuesta as [rc|]; try destruct (rc =? MQTT_ERR_SUCCESS)%Z;
      cbn [fst snd connected reading_count gps_loss_count simulate_drone_movement
           List.length];
      repeat split; try assumption; try lia;
      try (apply Forall_nil);
      try (apply Forall_cons; [|apply Forall_nil];
           cbn [topic qos data timestamp gps]; repeat split;
           try reflexivity; try discriminate).
Qed.


(** X20.  A call of [publish_telemetry] while the link is up takes the
    next reading number whatever the client answers, also when the
    publication fails; the loss of GPS is counted exactly on the readings
    whose number is a multiple of 5 and for which the draw is 2; at most
    one message is handed to the client, on the telemetry topic with
    quality of service 0, and it has no position exactly on those
    readings; the link flag is left as it was. *)
Theorem publish_telemetry_step
        (d : Dron) (ahora : string) (r : Azar) (respuesta : Respuesta) :
  connected d = true ->
  let d' := fst (publish_telemetry d ahora r respuesta) in
  let llamadas := snd (publish_telemetry d ahora r respuesta) in
  let perdida := ((reading_count d + 1) mod 5 =? 0)%Z && (tipo r =? 2)%Z in
  connected d' = true
  /\ reading_count d' = (reading_count d + 1)%Z
  /\ gps_loss_count d' = (gps_loss_count d + if perdida then 1 else 0)%Z
  /\ (List.length llamadas <= 1)%nat
  /\ Forall (fun m => topic m = MQTT_TOPIC /\ qos m = 0%Z
                      /\ timestamp (data m) = ahora
                      /\ (gps (data m) = None <-> perdida = true)) llamadas.
Proof. exact (publish_telemetry_connected d ahora r respuesta). Qed.

Lemma publish_telemetry_step_witness :
  connected {| connected := true; reading_count := 4; gps_loss_count := 0;
               battery_level := 100; current_lat := base_lat;
               current_lon := base_lon; current_alt := base_alt;
               prev_lat := base_lat; prev_lon := base_lon |} = true
  /\ reading_count
       (fst (publish_telemetry
               {| connected := true; reading_count := 4; gps_loss_count := 0;
                  battery_level := 100; current_lat := base_lat;
                  current_lon := base_lon; current_alt := base_alt;
                  prev_lat := base_lat; prev_lon := base_lon |}
               "2025-01-01T00:00:00Z"
               {| tipo := 2; paso_lat := 0; paso_lon := 0; paso_alt := 0;
                  vuelta_lat := 0; vuelta_lon := 0; calor := 50; frio := 0;
                  humedad := 0; caida := -100 |}
               (Devuelve 1))) = 5%Z
  /\ gps_loss_count
       (fst (publish_telemetry
               {| connected := true; reading_count := 4; gps_loss_count := 0;
                  battery_level := 100; current_lat := base_lat;
                  current_lon := base_lon; current_alt := base_alt;
                  prev_lat := base_lat; prev_lon := base_lon |}
               "2025-01-01T00:00:00Z"
               {| tipo := 2; paso_lat := 0; paso_lon := 0; paso_alt := 0;
                  vuelta_lat := 0; vuelta_lon := 0; calor := 50; frio := 0;
                  humedad := 0; caida := -100 |}
               (Devuelve 1))) = 1%Z.
Proof.
  split; [reflexivity|].
  pose proof (publish_telemetry_step
                {| connected := true; reading_count := 4; gps_loss_count := 0;
                   battery_level := 100; current_lat := base_lat;
                   current_lon := base_lon; current_alt := base_alt;
                   prev_lat := base_lat; prev_lon := base_lon |}
                "2025-01-01T00:00:00Z"
                {| tipo := 2; paso_lat := 0; paso_lon := 0; paso_alt := 0;
                   vuelta_lat := 0; vuelta_lon := 0; calor := 50; frio := 0;
                   humedad := 0; caida := -100 |}
                (Devuelve 1) eq_refl) as (_ & Hcount & Hgps & _).
  split; [exact Hcount | exact Hgps].
Defined.

(** X21.  All along a run of the simulator, whenever the connection comes
    and goes and whatever the client answers: the reading number never
    decreases and grows by at most one per turn of the loop; no more
    messages are handed to the client than reading numbers were taken;
    and at most one reading in five is a loss of GPS. *)
Theorem drone_run_counts (sucesos : list Suceso) :
  forall d,
    (0 <= gps_loss_count d)%Z ->
    (5 * gps_loss_count d <= reading_count d)%Z ->
    let final := fst (ejecutar d sucesos) in
    let llamadas := snd (ejecutar d sucesos) in
    (gps_loss_count d <= gps_loss_count final)%Z
    /\ (5 * gps_loss_count final <= reading_count final)%Z
    /\ (Z.of_nat (List.length llamadas)
        <= reading_count final - reading_count d
        <= Z.of_nat (Spec.drone_turns sucesos))%Z.
Proof.
  induction sucesos as [|[rc| |ahora r respuesta] resto IH]; intros d Hg Hinv;
    cbn [ejecutar Spec.drone_turns].
  - cbn [fst snd List.length]. lia.
  - apply (IH (on_connect d rc)); assumption.
  - apply (IH (on_disconnect d)); assumption.
  - destruct (connected d) eqn:Hc.
    + pose proof (publish_telemetry_connected d ahora r respuesta Hc)
        as (_ & Hcount & Hgps & Hlen & _).
      destruct (publish_telemetry d ahora r respuesta) as [d' calls].
      cbn [fst snd] in Hcount, Hgps, Hlen.
      assert (Hstep : (0 <= gps_loss_count d' /\ gps_loss_count d <= gps_loss_count d'
                       /\ 5 * gps_loss_count d' <= reading_count d')%Z).
      { rewrite Hcount, Hgps.
        destruct ((reading_count d + 1) mod 5 =? 0)%Z eqn:Hmod; cbn [andb];
          [|lia].
        apply Z.eqb_eq in Hmod.
        pose proof (Z.div_mod (reading_count d + 1) 5).
        destruct (tipo r =? 2)%Z; lia. }
      specialize (IH d' (proj1 Hstep) (proj2 (proj2 Hstep))).
      destruct (ejecutar d' resto) as [final otras]. cbn [fst snd] in *.
      rewrite length_app. lia.
    + unfold publish_telemetry. rewrite Hc. cbn [negb].
      specialize (IH d Hg Hinv).
      destruct (ejecutar d resto) as [final otras]. cbn [fst snd app] in *. lia.
Qed.

Lemma drone_run_counts_witness :
  ((0 <= gps_loss_count init)%Z /\ (5 * gps_loss_count init <= reading_count init)%Z)
  /\ (gps_loss_count init
      <= gps_loss_count
           (fst (ejecutar init
                   [Conecta 0;
                    Publica "2025-01-01T00:00:00Z"
                      {| tipo := 2; paso_lat := 0; paso_lon := 0; paso_alt := 0;
                         vuelta_lat := 0; vuelta_lon := 0; calor := 50; frio := 0;
                         humedad := 0; caida := -100 |}
                      (Devuelve 0);
                    Desconecta])))%Z.
Proof.
  assert (H1 : (0 <= gps_loss_count init)%Z) by (cbn; lia).
  assert (H2 : (5 * gps_loss_count init <= reading_count init)%Z) by (cbn; lia).
  split; [split; assumption|].
  exact (proj1 (drone_run_counts _ init H1 H2)).
Defined.

End Drone.
